(** * AR capture screen and review screen: a shallow embedding

    The repository consists of two browser scripts.  The capture screen
    (class [App] and the XR support check that precedes it) drives a WebXR
    session: it tracks a reticle by hit-testing, places a 3D model on the
    first tap, and on request composes a photo that it stores in
    [localStorage] before navigating to the review page.  The review script
    reads that entry back and renders it, or alerts when it is missing.

    The scripts are sequences of calls into platform objects, so they are
    embedded as computations in a small monad with
    - a state (the fields of [this], the scene objects they alias, the
      DOM properties the code writes, [localStorage]),
    - a chronological trace of the calls made into the platform, and
    - JavaScript exceptions, with [try]/[catch] and promise chains.
    Answers of the platform (a promise settling, an image loading, what a
    frame reports) are arguments of the embedded functions.  An [async]
    function runs through its [await]s in one piece, and a callback that
    the platform fires later runs as a task of its own after the code
    that registered it.  The markup of the two pages supplies the
    elements that the scripts look up by id: a lookup is recorded as a
    call and yields the element. *)

From Stdlib Require Import ZArith QArith Qround Lia Floats.
From stdpp Require Import gmap strings list.

Set Default Proof Using "Type".

Local Open Scope Z_scope.
Local Open Scope string_scope.
Local Open Scope list_scope.

(** ** Exceptions, events and the monad *)

Inductive Exn :=
| TypeError (msg : string)
| DOMException (name : string).

(** The two functions the capture screen hands to
    [XRSession.requestAnimationFrame]: the method [onXRFrame] and the
    anonymous arrow function of [captureImage]. *)
Inductive Callback := CbOnXRFrame | CbCapture.

#[global] Instance Callback_eq_dec : EqDecision Callback.
Proof. solve_decision. Defined.

(** Calls into the platform, in the order they are made.  Calls whose
    arguments no property depends on are recorded by name ([Call]). *)
Inductive Event :=
| Alert (msg : string)
| AlertExn (e : Exn)
| ConsoleLog (msg : string)
| ConsoleLogExn (e : Exn)
| ConsoleWarn (msg : string)
| ConsoleError (msg : string)
| ConsoleErrorExn (msg : string) (e : Exn)
| Uncaught (e : Exn)
| NoXRDevice
| AddEventListener (target type handler : string)
| RequestSession (mode : string)
| RequestAnimationFrame (cb : Callback)
| GetUserMedia
| SetItem (key value : string)
| Navigate (url : string)
| SetSrc (target url : string)
| SetWidth (canvas : string) (w : Z)
| SetHeight (canvas : string) (h : Z)
| DrawImage (source : string) (sx sy sw sh dx dy dw dh : Z)
| DrawImageAt (source : string) (dx dy dw dh : Z)
| ToDataURL (canvas mime : string)
| SetDownloadLink (href filename : string)
| SetShareHandler
| Call (api : string).

Inductive Result (S A : Type) :=
| Ok (a : A) (s : S)
| Throw (e : Exn) (s : S).
Arguments Ok {S A} a s.
Arguments Throw {S A} e s.

Definition state_of {S A} (r : Result S A) : S :=
  match r with Ok _ s => s | Throw _ s => s end.

Definition threw {S A} (r : Result S A) : bool :=
  match r with Ok _ _ => false | Throw _ _ => true end.

Record JS (S A : Type) : Type := Js { run : S -> Result S A }.
Arguments Js {S A} _.
Arguments run {S A} _ _.

#[global] Instance JS_ret S : MRet (JS S) :=
  fun A a => Js (fun s => Ok a s).

#[global] Instance JS_bind S : MBind (JS S) :=
  fun A B f m =>
    Js (fun s => match run m s with
                 | Ok a s' => run (f a) s'
                 | Throw e s' => Throw e s'
                 end).

Definition throw {S A} (e : Exn) : JS S A := Js (fun s => Throw e s).

Definition gets {S A} (f : S -> A) : JS S A := Js (fun s => Ok (f s) s).

Definition modify {S} (f : S -> S) : JS S unit := Js (fun s => Ok tt (f s)).

(** [try { body } catch (e) { handler e }]: the handler runs in the state
    the body had reached when it threw. *)
Definition try_catch {S A} (body : JS S A) (handler : Exn -> JS S A) : JS S A :=
  Js (fun s => match run body s with
               | Ok a s' => Ok a s'
               | Throw e s' => run (handler e) s'
               end).

(** What a promise, or a load, eventually reports. *)
Inductive Settled (A : Type) :=
| Resolved (a : A)
| Rejected (e : Exn).
Arguments Resolved {A} a.
Arguments Rejected {A} e.

(** [await p]: the value of a fulfilled promise, the reason of a rejected
    one as an exception. *)
Definition await {S A} (p : Settled A) : JS S A :=
  match p with
  | Resolved a => mret a
  | Rejected e => throw e
  end.

(** [p.then(f).catch(g)]: [g] receives the rejection of [p], and also
    whatever [f] throws. *)
Definition then_catch {S A} (p : Settled A)
    (f : A -> JS S unit) (g : Exn -> JS S unit) : JS S unit :=
  match p with
  | Resolved a => try_catch (f a) g
  | Rejected e => g e
  end.

(** JavaScript truthiness of what [Storage.getItem] returns: [null] and
    the empty string are falsy. *)
Definition truthy (v : option string) : bool :=
  match v with
  | None => false
  | Some s => negb (String.eqb s "")
  end.

(** ** The page: storage, location and the trace *)

Record Page := mkPage {
  localStorage : gmap string string;
  location : option string;       (* [Some url] once [location.href] was assigned *)
  trace : list Event
}.

Definition emitP (e : Event) (p : Page) : Page :=
  mkPage (localStorage p) (location p) (trace p ++ [e]).

Class HasPage (S : Type) := {
  get_page : S -> Page;
  set_page : Page -> S -> S
}.

#[global] Instance Page_HasPage : HasPage Page :=
  {| get_page := fun p => p; set_page := fun p _ => p |}.

Section Platform.
Context {S : Type} `{HasPage S}.

Definition on_page (f : Page -> Page) : JS S unit :=
  modify (fun s => set_page (f (get_page s)) s).

Definition emit (e : Event) : JS S unit := on_page (emitP e).

Definition call (api : string) : JS S unit := emit (Call api).

Definition alert (msg : string) : JS S unit := emit (Alert msg).

Definition getItem (key : string) : JS S (option string) :=
  gets (fun s => localStorage (get_page s) !! key).

(** [localStorage.setItem]: throws [QuotaExceededError] when the browser
    refuses the value ([fits = false]); otherwise the entry is replaced. *)
Definition setItem (fits : bool) (key value : string) : JS S unit :=
  emit (SetItem key value);;
  if fits
  then on_page (fun p => mkPage (<[key := value]> (localStorage p))
                                (location p) (trace p))
  else throw (DOMException "QuotaExceededError").

(** [window.location.href = url] *)
Definition navigate (url : string) : JS S unit :=
  emit (Navigate url);;
  on_page (fun p => mkPage (localStorage p) (Some url) (trace p)).

(** A callback run by the event loop as a task of its own: what it
    throws is reported by the browser, and nobody catches it. *)
Definition task (m : JS S unit) : JS S unit :=
  try_catch m (fun e => emit (Uncaught e)).
End Platform.

(** The part of a trace that a computation added. *)
Definition events_since (before after : list Event) : list Event :=
  drop (length before) after.

(** An image that was asked to load: it fires [load] with its intrinsic
    size, or it fires [error]. *)
Inductive ImageLoad :=
| Loaded (width height : Z)
| LoadError.

(** ** The review script (src/shared/review.js) *)

Module Review.

Record Env := mkEnv {
  image_load : ImageLoad;          (* the data URL decodes, or not *)
  blob_ready : bool;               (* [toBlob] calls back *)
  object_url : string              (* what [URL.createObjectURL] returns *)
}.

(** The callback given to [canvas.toBlob]. *)
Definition toBlob_callback (env : Env) : JS Page unit :=
  call "new File";;
  call "document.getElementById('download-button')";;
  call "URL.createObjectURL";;
  emit (SetDownloadLink (object_url env) "captured_image.png");;
  call "document.getElementById('share-button')";;
  emit SetShareHandler.

(** [image.onload] *)
Definition image_onload (env : Env) (width height : Z) : JS Page unit :=
  emit (SetWidth "final-canvas" width);;
  emit (SetHeight "final-canvas" height);;
  call "ctx.save";;
  call "ctx.translate";;
  call "ctx.scale";;
  emit (DrawImageAt "image" 0 0 width height);;
  call "ctx.restore";;
  call "canvas.toBlob".

(** The top level of the script.  It returns whether it registered
    [image.onload].  In the first branch [imageData] is a string. *)
Definition main : JS Page bool :=
  imageData ← getItem "capturedImage";
  if truthy imageData then
    call "document.getElementById('captured-image')";;
    emit (SetSrc "captured-image" (default "" imageData));;
    call "document.getElementById('final-canvas')";;
    call "canvas.getContext('2d')";;
    call "new Image";;
    emit (SetSrc "image" (default "" imageData));;
    mret true
  else
    alert "No image data available.";;
    mret false.

(** One run of the page: the script, then the callbacks it registered,
    each as a task, when the platform fires them. *)
Definition script (env : Env) : JS Page unit :=
  registered ← main;
  if registered : bool then
    match image_load env with
    | Loaded width height =>
        task (image_onload env width height);;
        if blob_ready env then task (toBlob_callback env) else mret tt
    | LoadError => mret tt
    end
  else mret tt.

(** Setting the displayed image, sizing or drawing on the canvas, and
    configuring the download and share buttons. *)
Definition is_render_event (e : Event) : bool :=
  match e with
  | SetSrc _ _ | SetWidth _ _ | SetHeight _ _
  | DrawImage _ _ _ _ _ _ _ _ _ | DrawImageAt _ _ _ _ _
  | SetDownloadLink _ _ | SetShareHandler => true
  | _ => false
  end.



End Review.

(** ** The capture screen (class [App]) *)

(** *** Scene objects

    The fields [this.reticle] and [this.sunflower] and the children of
    [this.scene] are references to mutable THREE objects, and one object
    can be reached through several of them (the reticle and the model
    are children of the scene that [onSelect] searches).  Objects live in
    a store; a reference is an index into it. *)

Record Vector3 := mkVector3 { vx : float; vy : float; vz : float }.

Record Object3D := mkObject3D {
  name : string;
  position : Vector3;
  visible : bool
}.

#[global] Instance Object3D_inhabited : Inhabited Object3D :=
  populate (mkObject3D "" (mkVector3 0 0 0) true).

Definition set_position (p : Vector3) (o : Object3D) : Object3D :=
  mkObject3D (name o) p (visible o).

Definition set_position_y (y : float) (o : Object3D) : Object3D :=
  mkObject3D (name o) (mkVector3 (vx (position o)) y (vz (position o))) (visible o).

Definition set_visible (b : bool) (o : Object3D) : Object3D :=
  mkObject3D (name o) (position o) b.

Definition Ref := nat.

Inductive XRSession := Session (id : nat).

(** The fields of [this].  A field that was never assigned is
    [undefined]: [None], or [false] for the flags. *)
Record App := mkApp {
  modelCloned : bool;
  animation : bool;
  stabilized : bool;
  xrSession : option XRSession;
  scene : option (list Ref);        (* [this.scene.children] *)
  reticle : option Ref;
  sunflower : option Ref;
  mixer : bool                      (* [this.mixer] is assigned *)
}.

Record World := mkWorld {
  page : Page;
  this : App;
  heap : list Object3D;
  captureContainer_display : string;   (* [captureContainer.style.display] *)
  prompt_display : string;             (* the prompt's [style.display] *)
  rafQueue : list Callback;            (* frame callbacks of [this.xrSession] *)
  selectListener : bool;               (* [onSelect] listens on [this.xrSession] *)
  enterArListener : bool;              (* [activateXR] listens on the button *)
  pendingLoads : nat                   (* model loads in flight *)
}.

#[global] Instance World_HasPage : HasPage World :=
  {| get_page := page;
     set_page := fun p w =>
       mkWorld p (this w) (heap w) (captureContainer_display w)
               (prompt_display w) (rafQueue w) (selectListener w)
               (enterArListener w) (pendingLoads w) |}.

Definition set_this (a : App) (w : World) : World :=
  mkWorld (page w) a (heap w) (captureContainer_display w) (prompt_display w)
          (rafQueue w) (selectListener w) (enterArListener w) (pendingLoads w).

Definition set_heap (h : list Object3D) (w : World) : World :=
  mkWorld (page w) (this w) h (captureContainer_display w) (prompt_display w)
          (rafQueue w) (selectListener w) (enterArListener w) (pendingLoads w).

Definition set_captureContainer_display (d : string) (w : World) : World :=
  mkWorld (page w) (this w) (heap w) d (prompt_display w)
          (rafQueue w) (selectListener w) (enterArListener w) (pendingLoads w).

Definition set_prompt_display (d : string) (w : World) : World :=
  mkWorld (page w) (this w) (heap w) (captureContainer_display w) d
          (rafQueue w) (selectListener w) (enterArListener w) (pendingLoads w).

Definition set_rafQueue (q : list Callback) (w : World) : World :=
  mkWorld (page w) (this w) (heap w) (captureContainer_display w)
          (prompt_display w) q (selectListener w) (enterArListener w)
          (pendingLoads w).

Definition set_selectListener (b : bool) (w : World) : World :=
  mkWorld (page w) (this w) (heap w) (captureContainer_display w)
          (prompt_display w) (rafQueue w) b (enterArListener w)
          (pendingLoads w).

Definition set_enterArListener (b : bool) (w : World) : World :=
  mkWorld (page w) (this w) (heap w) (captureContainer_display w)
          (prompt_display w) (rafQueue w) (selectListener w) b
          (pendingLoads w).

Definition set_pendingLoads (n : nat) (w : World) : World :=
  mkWorld (page w) (this w) (heap w) (captureContainer_display w)
          (prompt_display w) (rafQueue w) (selectListener w)
          (enterArListener w) n.

Definition set_modelCloned (b : bool) (a : App) : App :=
  mkApp b (animation a) (stabilized a) (xrSession a) (scene a) (reticle a)
        (sunflower a) (mixer a).

Definition set_animation (b : bool) (a : App) : App :=
  mkApp (modelCloned a) b (stabilized a) (xrSession a) (scene a) (reticle a)
        (sunflower a) (mixer a).

Definition set_stabilized (b : bool) (a : App) : App :=
  mkApp (modelCloned a) (animation a) b (xrSession a) (scene a) (reticle a)
        (sunflower a) (mixer a).

Definition set_xrSession (s : option XRSession) (a : App) : App :=
  mkApp (modelCloned a) (animation a) (stabilized a) s (scene a) (reticle a)
        (sunflower a) (mixer a).

Definition set_scene (s : option (list Ref)) (a : App) : App :=
  mkApp (modelCloned a) (animation a) (stabilized a) (xrSession a) s
        (reticle a) (sunflower a) (mixer a).

Definition set_reticle (r : option Ref) (a : App) : App :=
  mkApp (modelCloned a) (animation a) (stabilized a) (xrSession a) (scene a)
        r (sunflower a) (mixer a).

Definition set_sunflower (r : option Ref) (a : App) : App :=
  mkApp (modelCloned a) (animation a) (stabilized a) (xrSession a) (scene a)
        (reticle a) r (mixer a).

Definition set_mixer (b : bool) (a : App) : App :=
  mkApp (modelCloned a) (animation a) (stabilized a) (xrSession a) (scene a)
        (reticle a) (sunflower a) b.

(** Reading and writing [this.f]. *)
Definition this_get {A} (f : App -> A) : JS World A :=
  gets (fun w => f (this w)).

Definition this_set (upd : App -> App) : JS World unit :=
  modify (fun w => set_this (upd (this w)) w).

(** Reading a property of [x] when [x] is [undefined] throws. *)
Definition deref {A} (what : string) (x : option A) : JS World A :=
  match x with
  | Some a => mret a
  | None => throw (TypeError what)
  end.

(** The object behind a reference, and an in-place update of it. *)
Definition obj_get (r : Ref) : JS World Object3D :=
  gets (fun w => heap w !!! r).

Definition obj_update (r : Ref) (f : Object3D -> Object3D) : JS World unit :=
  modify (fun w => set_heap (alter f r (heap w)) w).

(** A new object: its reference is the next free index. *)
Definition alloc (o : Object3D) : JS World Ref :=
  Js (fun w => Ok (length (heap w)) (set_heap (heap w ++ [o]) w)).

Definition alloc_all (os : list Object3D) : JS World (list Ref) :=
  Js (fun w => Ok (seq (length (heap w)) (length os))
                  (set_heap (heap w ++ os) w)).

(** [children.find(c => c.name === n)] *)
Definition find_by_name (n : string) (children : list Ref) : JS World (option Ref) :=
  gets (fun w => find (fun r => String.eqb (name (heap w !!! r)) n) children).

(** [this.xrSession.requestAnimationFrame(cb)] *)
Definition requestAnimationFrame (cb : Callback) : JS World unit :=
  session ← this_get xrSession;
  _ ← deref "this.xrSession is undefined" session;
  emit (RequestAnimationFrame cb);;
  modify (fun w => set_rafQueue (rafQueue w ++ [cb]) w).

(** [onNoXRDevice()], a global function of the page. *)
Definition onNoXRDevice : JS World unit := emit NoXRDevice.

(** *** What the platform reports *)

Record XRView := mkXRView {
  viewport_width : Z;
  viewport_height : Z
}.

(** A frame: the first view of the viewer pose, if there is a pose, and
    for each hit-test result the position of its pose in the local
    reference space ([getPose] may return [null]). *)
Record XRFrame := mkXRFrame {
  viewerPose : option XRView;
  hitTestResults : list (option Vector3)
}.

(** A loaded glTF file: its root object, the names of the root's
    children, and the number of animation clips. *)
Record Gltf := mkGltf {
  gltf_scene : Object3D;
  gltf_children : list string;
  gltf_animations : nat
}.

(** [gltf.scene.children.find(c => c.name === n)] finds a child. *)
Definition has_child (n : string) (gltf : Gltf) : bool :=
  existsb (String.eqb n) (gltf_children gltf).

#[global] Arguments has_child : simpl never.

Record Canvas := mkCanvas {
  canvas_id : string;
  width : Z;
  height : Z
}.

(** Support for WebXR, as the check at the top of the script sees it. *)
Record XRSupport := mkXRSupport {
  xr : bool;                                (* [navigator.xr] is defined *)
  isSessionSupported_defined : bool;
  isSessionSupported_result : Settled bool
}.

(** The answers to one activation of the session. *)
Record SessionEnv := mkSessionEnv {
  requestSession_result : Settled XRSession;
  webgl_context : bool;                     (* [getContext('webgl')] is not null *)
  localReferenceSpace_result : Settled unit;
  viewerSpace_result : Settled unit;
  hitTestSource_result : Settled unit
}.

(** The answers to one capture. *)
Record CaptureEnv := mkCaptureEnv {
  mediaDevices : bool;                      (* [navigator.mediaDevices] is defined *)
  getUserMedia_defined : bool;
  getUserMedia_result : Settled unit;
  video_loadeddata : option (Z * Z);        (* fires, with videoWidth and videoHeight *)
  banner_load : ImageLoad;
  toDataURL_result : Settled string;
  storage_fits : bool
}.

(** The calls that a computation adds to the trace when run in [w]. *)
Definition added {A} (m : JS World A) (w : World) : list Event :=
  events_since (trace (page w)) (trace (page (state_of (run m w)))).

(** Classes of events that the properties below speak about. *)
Definition is_SetItem (e : Event) : bool :=
  match e with SetItem _ _ => true | _ => false end.

Definition is_Navigate (e : Event) : bool :=
  match e with Navigate _ => true | _ => false end.

Definition is_RequestSession (e : Event) : bool :=
  match e with RequestSession _ => true | _ => false end.

Definition is_GetUserMedia (e : Event) : bool :=
  match e with GetUserMedia => true | _ => false end.

Definition is_RequestAnimationFrame (e : Event) : bool :=
  match e with RequestAnimationFrame _ => true | _ => false end.

Definition is_SetHeight_of (canvas : string) (e : Event) : bool :=
  match e with SetHeight c _ => String.eqb c canvas | _ => false end.

Definition is_AddEventListener (e : Event) : bool :=
  match e with AddEventListener _ _ _ => true | _ => false end.

(** Telling somebody: a console message or an alert. *)
Definition is_report (e : Event) : bool :=
  match e with
  | Alert _ | AlertExn _
  | ConsoleLog _ | ConsoleLogExn _ | ConsoleWarn _
  | ConsoleError _ | ConsoleErrorExn _ _ => true
  | _ => false
  end.

(** *** The methods of [App] (src/unnamed/part_000) *)

Section Capture.

(** Three things the capture screen takes from the other scripts of the
    page: the children of the scene built by [DemoUtils.createLitScene()],
    the object that [new Reticle()] constructs, and what the reticle's
    [hide()] method does to it. *)
Variable createLitScene : list Object3D.
Variable Reticle_new : Object3D.
Variable Reticle_hide : Object3D -> Object3D.

(** The check at the top of the script: [&&] evaluates the [await] only
    when [navigator.xr] and its [isSessionSupported] are defined. *)
Definition xrSupportCheck (nav : XRSupport) : JS World unit :=
  isArSessionSupported ←
    (if xr nav then
       if isSessionSupported_defined nav
       then call "navigator.xr.isSessionSupported";;
            await (isSessionSupported_result nav)
       else mret false
     else mret false);
  if isArSessionSupported : bool then
    emit (AddEventListener "enter-ar" "click" "activateXR");;
    modify (set_enterArListener true)
  else
    onNoXRDevice.

Definition App_constructor : JS World unit :=
  call "document.getElementById('capture-button')";;
  call "document.getElementById('capture-container')";;
  emit (AddEventListener "capture-button" "click" "captureImage");;
  this_set (set_modelCloned false);;
  this_set (set_animation false).

Definition createXRCanvas (env : SessionEnv) : JS World unit :=
  call "document.createElement('canvas')";;
  call "document.body.appendChild";;
  call "canvas.getContext('webgl')";;
  (if webgl_context env then mret tt
   else throw (TypeError "XRWebGLLayer: no rendering context"));;
  call "xrSession.updateRenderState".

(** The callback given to [gltfLoader.load]. *)
Definition onGltfLoaded (gltf : Gltf) : JS World unit :=
  (if has_child "Sketchfab_model" gltf
   then call "model.scale.set"
   else throw (TypeError "model is undefined"));;
  model ← alloc (gltf_scene gltf);
  this_set (set_sunflower (Some model));;
  call "new THREE.AnimationMixer";;
  this_set (set_mixer true);;
  (if (0 <? gltf_animations gltf)%nat then
     this_set (set_animation true);;
     call "mixer.clipAction";;
     call "action.play"
   else mret tt);;
  sc ← this_get scene;
  children ← deref "this.scene is undefined" sc;
  this_set (set_scene (Some (children ++ [model])));;
  obj_update model (set_visible false).

Definition setupThreeJs : JS World unit :=
  call "new THREE.WebGLRenderer";;
  children ← alloc_all createLitScene;
  this_set (set_scene (Some children));;
  r ← alloc Reticle_new;
  this_set (set_reticle (Some r));;
  this_set (set_scene (Some (children ++ [r])));;
  call "new THREE.PerspectiveCamera";;
  call "gltfLoader.load";;
  modify (fun w => set_pendingLoads (S (pendingLoads w)) w);;
  call "new THREE.Clock".

Definition onSessionStarted (env : SessionEnv) : JS World unit :=
  call "document.body.classList.add('ar')";;
  setupThreeJs;;
  call "xrSession.requestReferenceSpace('local')";;
  await (localReferenceSpace_result env);;
  call "xrSession.requestReferenceSpace('viewer')";;
  await (viewerSpace_result env);;
  call "xrSession.requestHitTestSource";;
  await (hitTestSource_result env);;
  requestAnimationFrame CbOnXRFrame;;
  emit (AddEventListener "xrSession" "select" "onSelect");;
  modify (set_selectListener true).

(** A session that was just granted has no frame callbacks and no
    listeners yet. *)
Definition activateXR (env : SessionEnv) : JS World unit :=
  try_catch
    (emit (RequestSession "immersive-ar");;
     session ← await (requestSession_result env);
     this_set (set_xrSession (Some session));;
     modify (fun w => set_selectListener false (set_rafQueue [] w));;
     createXRCanvas env;;
     onSessionStarted env)
    (fun e =>
       emit (ConsoleLogExn e);;
       onNoXRDevice).

Definition onSelect : JS World unit :=
  cloned ← this_get modelCloned;
  sf ← this_get sunflower;
  match negb cloned, sf with
  | true, Some model =>
      (* Position the model at the reticle's location *)
      ret ← this_get reticle;
      r ← deref "this.reticle is undefined" ret;
      target ← obj_get r;
      obj_update model (set_position (position target));;
      (* Make the model visible *)
      obj_update model (set_visible true);;
      (* Show the capture container *)
      modify (set_captureContainer_display "flex");;
      (* Adjust the shadow mesh position *)
      sc ← this_get scene;
      children ← deref "this.scene is undefined" sc;
      shadowMesh ← find_by_name "shadowMesh" children;
      match shadowMesh with
      | Some m =>
          placed ← obj_get model;
          obj_update m (set_position_y (vy (position placed)))
      | None => emit (ConsoleWarn "Shadow mesh not found.")
      end;;
      (* Mark the model as placed *)
      this_set (set_modelCloned true);;
      (* Hide the reticle *)
      match ret with
      | Some r' => obj_update r' Reticle_hide
      | None => emit (ConsoleWarn "Reticle is not found.")
      end
  | _, _ => mret tt
  end.

Definition onXRFrame (frame : XRFrame) : JS World unit :=
  requestAnimationFrame CbOnXRFrame;;
  call "gl.bindFramebuffer";;
  call "renderer.setFramebuffer";;
  match viewerPose frame with
  | Some view =>
      call "baseLayer.getViewport";;
      call "renderer.setSize";;
      call "camera.matrix.fromArray";;
      call "camera.projectionMatrix.fromArray";;
      call "camera.updateMatrixWorld";;
      let hits := hitTestResults frame in
      st ← this_get stabilized;
      (if negb st && (0 <? length hits)%nat then
         this_set (set_stabilized true);;
         call "document.body.classList.add('stabilized')"
       else mret tt);;
      match hits with
      | hit :: _ =>
          ret ← this_get reticle;
          cloned ← this_get modelCloned;
          match ret, negb cloned with
          | Some r, true =>
              obj_update r (set_visible true);;
              hitPose ← deref "hitPose is null" hit;
              obj_update r (set_position hitPose);;
              call "reticle.updateMatrixWorld"
          | _, _ => emit (ConsoleError "Reticle is not found.")
          end
      | [] => mret tt
      end;;
      mx ← this_get mixer;
      anim ← this_get animation;
      (if mx && anim then call "mixer.update" else mret tt);;
      call "renderer.render"
  | None => mret tt
  end.

(** [ctx.drawImage] with a canvas as the source: a canvas without area
    is refused with [InvalidStateError]. *)
Definition drawImage_canvas (source : Canvas) (sx sy sw sh dx dy dw dh : Z)
    : JS World unit :=
  if (width source =? 0)%Z || (height source =? 0)%Z
  then throw (DOMException "InvalidStateError")
  else emit (DrawImage (canvas_id source) sx sy sw sh dx dy dw dh).

(** [Math.floor((3 / 4) * arCanvas.height)].  Canvas heights are integers
    below 2^32 and 3/4 is a binary fraction, so the product is exact in
    double precision and is the rational computed here. *)
Definition targetHeight (arHeight : Z) : Z :=
  Qfloor ((3 # 4) * inject_Z arHeight).

(** [Math.floor((arCanvas.height - targetHeight) / 2)] *)
Definition cropMargin (arHeight : Z) : Z :=
  Qfloor (inject_Z (arHeight - targetHeight arHeight) / inject_Z 2).

#[global] Arguments targetHeight : simpl never.
#[global] Arguments cropMargin : simpl never.

Definition bannerImage_onload (env : CaptureEnv) (arCanvas cameraCanvas : Canvas)
    (targetHeight cropMargin : Z) (bannerWidth bannerHeight : Z) : JS World unit :=
  (* Calculate the final canvas height to include the banner on top *)
  emit (SetWidth "finalCanvas" (width arCanvas));;
  emit (SetHeight "finalCanvas" (targetHeight + bannerHeight));;
  let finalCanvas :=
    mkCanvas "finalCanvas" (width arCanvas) (targetHeight + bannerHeight) in
  (* Draw the banner at the top of the final canvas *)
  emit (DrawImageAt "bannerImage" 0 0 (width finalCanvas) bannerHeight);;
  (* Draw the cropped camera feed below the banner *)
  drawImage_canvas cameraCanvas
    0 cropMargin (width arCanvas) targetHeight
    0 bannerHeight (width finalCanvas) targetHeight;;
  (* Draw the cropped AR content on top of the camera feed *)
  drawImage_canvas arCanvas
    0 cropMargin (width arCanvas) targetHeight
    0 bannerHeight (width finalCanvas) targetHeight;;
  (* Convert the final canvas to a data URL and store it in localStorage *)
  emit (ToDataURL "finalCanvas" "image/png");;
  dataURL ← await (toDataURL_result env);
  setItem (storage_fits env) "capturedImage" dataURL;;
  (* Hide the prompt *)
  call "document.getElementById('prompt')";;
  modify (set_prompt_display "none");;
  emit (ConsoleLog "Image processed and stored, redirecting to review page");;
  (* Redirect to the review page *)
  navigate "review.html".

Definition bannerImage_onerror : JS World unit :=
  alert "Failed to load the banner image.".

(** The body of the [try] registers the two handlers of the banner image;
    the platform then fires one of them, as a task outside the [try]. *)
Definition combineCanvases (env : CaptureEnv) (arCanvas cameraCanvas : Canvas)
    : JS World unit :=
  registered ←
    try_catch
      (call "document.createElement('canvas')";;
       call "finalCanvas.getContext('2d')";;
       call "new Image";;
       emit (SetSrc "bannerImage" "public/banner.jpg");;
       mret true)
      (fun err => emit (AlertExn err);; mret false);
  if registered : bool then
    match banner_load env with
    | Loaded bannerWidth bannerHeight =>
        task (bannerImage_onload env arCanvas cameraCanvas
                (targetHeight (height arCanvas)) (cropMargin (height arCanvas))
                bannerWidth bannerHeight)
    | LoadError => task bannerImage_onerror
    end
  else mret tt.

(** [video.onloadeddata] *)
Definition video_onloadeddata (env : CaptureEnv) (arCanvas cameraCanvas : Canvas)
    : JS World unit :=
  call "context.translate";;
  call "context.scale";;
  call "context.drawImage(video)";;
  combineCanvases env arCanvas cameraCanvas.

(** [cameraCanvas.height * targetAspectRatio] with the ratio 9 / 20, as
    the canvas stores it: truncated to an integer.  (The rational is the
    exact product; the double that JavaScript computes is its rounding.) *)
Definition requiredWidth (cameraHeight : Z) : Z :=
  Qfloor (inject_Z cameraHeight * (9 # 20)).

#[global] Arguments requiredWidth : simpl never.

(** The second parameter of the source, [arAspectRatio], is never read
    and is left out. *)
Definition getCamerafeed (env : CaptureEnv) (arCanvas : Canvas) : JS World unit :=
  if mediaDevices env && getUserMedia_defined env then
    call "document.getElementById('video')";;
    call "document.createElement('canvas')";;
    call "cameraCanvas.getContext('2d')";;
    emit (SetHeight "cameraCanvas" (height arCanvas));;
    emit (SetWidth "cameraCanvas" (requiredWidth (height arCanvas)));;
    let cameraCanvas :=
      mkCanvas "cameraCanvas" (requiredWidth (height arCanvas)) (height arCanvas) in
    (* Request access to the camera *)
    emit GetUserMedia;;
    then_catch (getUserMedia_result env)
      (fun stream =>
         call "video.srcObject = stream";;
         call "video.play";;
         call "video.onloadeddata = handler")
      (fun error =>
         emit (ConsoleErrorExn "Error accessing media devices." error);;
         alert "Failed to access the camera. Please check your browser permissions.");;
    match getUserMedia_result env, video_loadeddata env with
    | Resolved _, Some _ => task (video_onloadeddata env arCanvas cameraCanvas)
    | _, _ => mret tt
    end
  else mret tt.

(** The frame callback that [captureImage] schedules. *)
Definition captureImage_frame (env : CaptureEnv) (frame : XRFrame) : JS World unit :=
  emit (ConsoleLog "requestAnimationFrame called");;
  match viewerPose frame with
  | Some view =>
      call "baseLayer.getViewport";;
      emit (ConsoleLog "Pose obtained, rendering scene");;
      call "renderer.setSize";;
      call "renderer.render";;
      emit (ConsoleLog "Scene rendered, capturing pixels");;
      call "renderer.getContext";;
      call "new Uint8Array";;
      call "gl.readPixels";;
      emit (ConsoleLog "Pixels captured, processing image");;
      call "document.createElement('canvas')";;
      emit (SetWidth "arCanvas" (viewport_width view));;
      emit (SetHeight "arCanvas" (viewport_height view));;
      let arCanvas :=
        mkCanvas "arCanvas" (viewport_width view) (viewport_height view) in
      call "arCanvas.getContext('2d')";;
      call "arCtx.translate";;
      call "arCtx.scale";;
      call "arCtx.createImageData";;
      call "imageData.data.set";;
      call "arCtx.putImageData";;
      (* Now, capture the camera feed *)
      getCamerafeed env arCanvas
  | None => emit (ConsoleError "No pose available for capture")
  end.

Definition captureImage : JS World unit :=
  call "document.getElementById('prompt')";;
  modify (set_prompt_display "flex");;
  emit (ConsoleLog "Starting capture process");;
  requestAnimationFrame CbCapture.

(** *** The event loop

    The page reacts to what the platform delivers.  A handler runs only
    when it is registered: [activateXR] after the support check attached
    it, [onSelect] and the frame callbacks on a session that has them, the
    load callback when a load is in flight.  Nothing is delivered once the
    page has navigated away. *)

Inductive Input :=
| ClickEnterAR (env : SessionEnv)
| GltfLoad (gltf : Gltf)
| SelectEvent
| AnimationFrame (frame : XRFrame) (env : CaptureEnv)
| ClickCapture.

Definition is_ClickEnterAR (i : Input) : bool :=
  match i with ClickEnterAR _ => true | _ => false end.

Definition run_callback (env : CaptureEnv) (frame : XRFrame) (cb : Callback)
    : JS World unit :=
  match cb with
  | CbOnXRFrame => onXRFrame frame
  | CbCapture => captureImage_frame env frame
  end.

Fixpoint run_callbacks (env : CaptureEnv) (frame : XRFrame) (cbs : list Callback)
    : JS World unit :=
  match cbs with
  | [] => mret tt
  | cb :: rest =>
      task (run_callback env frame cb);;
      run_callbacks env frame rest
  end.

(** A frame of the session: the callbacks requested so far are taken off
    the list and run; what they request is for the next frame. *)
Definition animationFrame (env : CaptureEnv) (frame : XRFrame) : JS World unit :=
  cbs ← gets rafQueue;
  modify (set_rafQueue []);;
  run_callbacks env frame cbs.

Definition handle (i : Input) : JS World unit :=
  match i with
  | ClickEnterAR env =>
      registered ← gets enterArListener;
      if registered : bool then task (activateXR env) else mret tt
  | GltfLoad gltf =>
      n ← gets pendingLoads;
      match n with
      | S n' =>
          modify (set_pendingLoads n');;
          task (onGltfLoaded gltf)
      | O => mret tt
      end
  | SelectEvent =>
      registered ← gets selectListener;
      if registered : bool then task onSelect else mret tt
  | AnimationFrame frame env => animationFrame env frame
  | ClickCapture => task captureImage
  end.

Definition step (w : World) (i : Input) : World :=
  match location (page w) with
  | Some _ => w
  | None => state_of (run (handle i) w)
  end.

Definition steps (w : World) (inputs : list Input) : World :=
  fold_left step inputs w.

(** The page when its script starts: what an earlier visit left in
    [localStorage], and the inline [display] styles of the markup. *)
Definition blank (storage : gmap string string) (container prompt : string)
    : World :=
  mkWorld (mkPage storage None [])
          (mkApp false false false None None None None false)
          [] container prompt [] false false 0%nat.

(** The script: the support check, whose part after the [await] runs
    once the rest of the script is done, and [window.app = new App()]. *)
Definition script (nav : XRSupport) : JS World unit :=
  if xr nav && isSessionSupported_defined nav then
    App_constructor;;
    task (xrSupportCheck nav)
  else
    task (xrSupportCheck nav);;
    App_constructor.

(** The worlds the page can be in: after the script, and after any
    inputs. *)
Inductive reachable : World -> Prop :=
| reachable_start nav storage container prompt :
    reachable (state_of (run (script nav) (blank storage container prompt)))
| reachable_step w i :
    reachable w -> reachable (step w i).


(** *** Well-formed worlds

    What the placement logic relies on: the references held by [this]
    point at objects, the model is not the reticle, and the model is only
    there after the scene and the reticle. *)

Definition Inv (w : World) : Prop :=
  (forall r, reticle (this w) = Some r ->
     (r < length (heap w))%nat /\ is_Some (scene (this w)))
  /\ (forall m, sunflower (this w) = Some m ->
     (m < length (heap w))%nat
     /\ is_Some (reticle (this w))
     /\ reticle (this w) <> Some m)
  /\ ((0 < pendingLoads w)%nat -> is_Some (reticle (this w)))
  /\ (modelCloned (this w) = true -> is_Some (sunflower (this w))).

(** The part of a world that [Inv] reads. *)
Definition skeleton (w : World) :=
  (modelCloned (this w), scene (this w), reticle (this w),
   sunflower (this w), pendingLoads w, length (heap w)).

(** Once the model is placed, it stays placed and no scene object
    changes. *)
Definition placed_frozen : relation World :=
  fun w w' =>
    modelCloned (this w) = true ->
    modelCloned (this w') = true
    /\ reticle (this w') = reticle (this w)
    /\ heap w' = heap w.

(** *** Summaries of computations

    [sat m R]: whatever state [m] starts in, the state it ends in, by
    returning or by throwing, is related to it by [R].  For a reflexive
    and transitive [R] this follows the structure of [m]. *)

Definition sat {A} (m : JS World A) (R : relation World) : Prop :=
  forall w, R w (state_of (run m w)).

(** Two families of summaries: a component of the state is kept, and
    all calls added to the trace are of a given kind. *)
Definition keeps {B} (f : World -> B) : relation World :=
  fun w w' => f w' = f w.

Definition adds (P : Event -> bool) : relation World :=
  fun w w' =>
    exists evs, trace (page w') = trace (page w) ++ evs
                /\ forallb P evs = true.

(** The placed flag. *)
Definition placed (w : World) : bool := modelCloned (this w).

(** [immersive-ar] is not supported: [navigator.xr] or its
    [isSessionSupported] is missing, or the query answers [false]. *)
Definition unsupported (nav : XRSupport) : Prop :=
  xr nav = false \/ isSessionSupported_defined nav = false
  \/ isSessionSupported_result nav = Resolved false.

(** How often a session was requested so far, and how often the button
    to enter AR is clicked in a list of inputs. *)
Definition requests (w : World) : nat :=
  length (filter is_RequestSession (trace (page w))).

#[global] Arguments requests : simpl never.

Definition clicks (inputs : list Input) : nat :=
  length (filter is_ClickEnterAR inputs).

(** Frame callbacks are only ever on the list of a session. *)
Definition session_ok (w : World) : Prop :=
  xrSession (this w) = None -> rafQueue w = [].

(** *** Notions for the further properties *)

(** The session setup of [activateXR] succeeds at every step: the session
    is granted as [s], the canvas yields a WebGL context, and the two
    reference spaces and the hit-test source are granted. *)
Definition session_granted (env : SessionEnv) (s : XRSession) : Prop :=
  requestSession_result env = Resolved s
  /\ webgl_context env = true
  /\ localReferenceSpace_result env = Resolved tt
  /\ viewerSpace_result env = Resolved tt
  /\ hitTestSource_result env = Resolved tt.

(** How many [onXRFrame] callbacks wait for the next frame. *)
Definition pending_onXRFrame (w : World) : nat :=
  length (filter (fun cb => cb = CbOnXRFrame) (rafQueue w)).

(** Adding the class 'stabilized' to the body, and how often the page
    has done so. *)
Definition is_stabilized_mark (e : Event) : bool :=
  match e with
  | Call api => String.eqb api "document.body.classList.add('stabilized')"
  | _ => false
  end.

Definition stabilized_marks (w : World) : nat :=
  length (filter is_stabilized_mark (trace (page w))).

#[global] Arguments stabilized_marks : simpl never.

(** What a capture hands over and shows: the storage, the location and
    the display of the prompt. *)
Definition handoff (w : World) : gmap string string * option string * string :=
  (localStorage (page w), location (page w), prompt_display w).


(** Every stage of a capture succeeds and yields the data URL [url]: the
    frame has a viewer pose whose viewport gives both canvases an area,
    the camera is available and granted, the video delivers a frame, the
    banner loads, the canvas serialises to [url] and the storage accepts
    it. *)
Definition capture_succeeds (env : CaptureEnv) (frame : XRFrame) (url : string)
    : Prop :=
  exists view,
    viewerPose frame = Some view
    /\ viewport_width view <> 0
    /\ viewport_height view <> 0
    /\ requiredWidth (viewport_height view) <> 0
    /\ mediaDevices env = true
    /\ getUserMedia_defined env = true
    /\ getUserMedia_result env = Resolved tt
    /\ is_Some (video_loadeddata env)
    /\ (exists bw bh, banner_load env = Loaded bw bh)
    /\ toDataURL_result env = Resolved url
    /\ storage_fits env = true.

(** A capture either hands over, or leaves the hand-off alone. *)
Definition captured (env : CaptureEnv) (frame : XRFrame) : relation World :=
  fun w w' =>
    handoff w' = handoff w
    \/ exists url,
         capture_succeeds env frame url
         /\ handoff w'
            = (<["capturedImage" := url]> (localStorage (page w)),
               Some "review.html", "none").

(** The class 'stabilized' follows the flag [this.stabilized]: a step
    never clears the flag, and it adds the class exactly when it sets the
    flag. *)
Definition stabilizes_once : relation World :=
  fun w w' =>
    (stabilized (this w) = true -> stabilized (this w') = true)
    /\ (stabilized_marks w' + (if stabilized (this w) then 1 else 0)
        = stabilized_marks w + (if stabilized (this w') then 1 else 0))%nat.

(** The model is hidden as long as it is not placed. *)
Definition model_hidden (w : World) : Prop :=
  forall m,
    sunflower (this w) = Some m ->
    modelCloned (this w) = false ->
    visible (heap w !!! m) = false.

(** A step that may change the reticle but no other scene object, and
    that leaves alone which objects are the model and the reticle and
    whether the model is placed. *)
Definition moves_reticle_only : relation World :=
  fun w w' =>
    sunflower (this w') = sunflower (this w)
    /\ modelCloned (this w') = modelCloned (this w)
    /\ reticle (this w') = reticle (this w)
    /\ forall m, reticle (this w) <> Some m -> heap w' !!! m = heap w !!! m.

(** The capture container is displayed exactly when the model is placed;
    until then it has the display of the markup. *)
Definition container_follows_placement (container : string) (w : World) : Prop :=
  captureContainer_display w
  = if modelCloned (this w) then "flex" else container.

(** The warning of [onSelect] about a missing reticle. *)
Definition is_reticle_warning (e : Event) : bool :=
  match e with
  | ConsoleWarn msg => String.eqb msg "Reticle is not found."
  | _ => false
  end.

(** The animation flag is only set for a model that is registered with
    its mixer; a step keeps this, and never clears the flag. *)
Definition animation_ok (w : World) : Prop :=
  animation (this w) = true ->
  mixer (this w) = true /\ is_Some (sunflower (this w)).

Definition keeps_animation_ok : relation World :=
  fun w w' =>
    (animation (this w) = true -> animation (this w') = true)
    /\ (animation_ok w -> animation_ok w').

(** ** Properties of the capture screen *)

(** Traces grow to the right: bring a trace to the form
    [before ++ events] and read off what was added. *)
Lemma events_since_app (before evs : list Event) :
  events_since before (before ++ evs) = evs.
Proof. unfold events_since. apply drop_app_length. Qed.

Lemma events_since_same (before : list Event) :
  events_since before before = [].
Proof. unfold events_since. apply drop_all. Qed.

Ltac trace_norm :=
  repeat rewrite <- app_assoc; simpl app.

(** An event that is claimed to be in an explicit trace is one of its
    elements. *)
Ltac in_trace H :=
  apply list_elem_of_In in H; simpl in H;
  repeat (destruct H as [H|H]; [try discriminate H|]); try contradiction.

(** Case analysis on what a stuck computation branches on. *)
Ltac pure_scrutinee c :=
  lazymatch c with
  | context [@run] => fail
  | context [@mbind] => fail
  | _ => idtac
  end.

Ltac js_case :=
  match goal with
  | |- context [@await _ _ ?c] => destruct c eqn:?
  | |- context [@deref _ _ ?c] => destruct c eqn:?
  | |- context [@then_catch _ _ ?c _ _] => destruct c eqn:?
  | |- context [if ?c then _ else _] => pure_scrutinee c; destruct c eqn:?
  | |- context [match ?c with _ => _ end] => pure_scrutinee c; destruct c eqn:?
  end.

(** An event is in an explicit trace. *)
Ltac trace_mem :=
  repeat first [apply list_elem_of_here | apply list_elem_of_further].

Ltac js_run :=
  unfold added; cbn -[events_since]; trace_norm;
  rewrite ?events_since_app, ?events_since_same.

(** Run a computation symbolically, through all of its branches. *)
Ltac js_exec := js_run; repeat (js_case; js_run).

(** *** Summaries follow the structure of a computation *)

Lemma sat_ret (R : relation World) `{!PreOrder R} {A} (a : A) : sat (mret a) R.
Proof. intros w. simpl. reflexivity. Qed.

Lemma sat_throw (R : relation World) `{!PreOrder R} {A} (e : Exn) :
  sat (@throw World A e) R.
Proof. intros w. simpl. reflexivity. Qed.

Lemma sat_gets (R : relation World) `{!PreOrder R} {A} (f : World -> A) :
  sat (gets f) R.
Proof. intros w. simpl. reflexivity. Qed.

Lemma sat_bind (R : relation World) `{!PreOrder R} {A B}
    (m : JS World A) (f : A -> JS World B) :
  sat m R -> (forall a, sat (f a) R) -> sat (m ≫= f) R.
Proof.
  intros Hm Hf w. specialize (Hm w). simpl.
  destruct (run m w) as [a w1|e w1]; simpl in *.
  - etransitivity; [exact Hm | apply Hf].
  - exact Hm.
Qed.

Lemma sat_try_catch (R : relation World) `{!PreOrder R} {A}
    (m : JS World A) (h : Exn -> JS World A) :
  sat m R -> (forall e, sat (h e) R) -> sat (try_catch m h) R.
Proof.
  intros Hm Hh w. specialize (Hm w). simpl.
  destruct (run m w) as [a w1|e w1]; simpl in *.
  - exact Hm.
  - etransitivity; [exact Hm | apply Hh].
Qed.

Lemma sat_await (R : relation World) `{!PreOrder R} {A} (p : Settled A) :
  sat (await p) R.
Proof. destruct p; [apply sat_ret | apply sat_throw]; apply _. Qed.

Lemma sat_deref (R : relation World) `{!PreOrder R} {A}
    (what : string) (x : option A) :
  sat (deref what x) R.
Proof. destruct x; [apply sat_ret | apply sat_throw]; apply _. Qed.

Lemma sat_then_catch (R : relation World) `{!PreOrder R} {A} (p : Settled A) f g :
  (forall a, sat (f a) R) -> (forall e, sat (g e) R) ->
  sat (then_catch p f g) R.
Proof.
  intros Hf Hg. destruct p; simpl; [apply sat_try_catch; [apply _|..]|]; auto.
Qed.

Lemma sat_task (R : relation World) `{!PreOrder R} (m : JS World unit) :
  sat m R -> (forall e, sat (emit (Uncaught e)) R) -> sat (task m) R.
Proof. intros Hm He. apply sat_try_catch; [apply _|..]; auto. Qed.

#[global] Instance keeps_preorder {B} (f : World -> B) : PreOrder (keeps f).
Proof.
  split.
  - intros w. reflexivity.
  - intros w1 w2 w3 H12 H23. unfold keeps in *. congruence.
Qed.

#[global] Instance adds_preorder (P : Event -> bool) : PreOrder (adds P).
Proof.
  split.
  - intros w. exists []. split; [symmetry; apply app_nil_r | reflexivity].
  - intros w1 w2 w3 (e12 & H12 & P12) (e23 & H23 & P23).
    exists (e12 ++ e23). split.
    + rewrite H23, H12, app_assoc. reflexivity.
    + rewrite forallb_app, P12, P23. reflexivity.
Qed.

Lemma adds_added {A} (P : Event -> bool) (m : JS World A) (w : World) :
  sat m (adds P) -> forallb P (added m w) = true.
Proof.
  intros Hm. destruct (Hm w) as (evs & Htr & HP).
  unfold added. rewrite Htr, events_since_app. exact HP.
Qed.

Lemma filter_none (P : Event -> bool) (evs : list Event) :
  forallb (fun e => negb (P e)) evs = true -> filter P evs = [].
Proof.
  induction evs as [|e evs IH]; simpl; [reflexivity|].
  intros H. apply andb_prop in H as [He Hevs].
  rewrite filter_cons. destruct (P e); [discriminate|].
  rewrite decide_False by (simpl; intros []). exact (IH Hevs).
Qed.

(** Leaves of a computation. *)
Ltac sat_keeps_leaf := intros ?w; reflexivity.

Ltac sat_adds_leaf :=
  intros ?w;
  first [ exists []; split; [symmetry; apply app_nil_r | reflexivity]
        | eexists [_]; split; reflexivity ].

Ltac sat_step leaf :=
  lazymatch goal with
  | |- sat (mret _) _ => apply sat_ret; apply _
  | |- sat (throw _) _ => apply sat_throw; apply _
  | |- sat (gets _) _ => apply sat_gets; apply _
  | |- sat (await _) _ => apply sat_await; apply _
  | |- sat (deref _ _) _ => apply sat_deref; apply _
  | |- sat (mbind _ _) _ => apply sat_bind; [apply _ | | intros ?]
  | |- sat (try_catch _ _) _ => apply sat_try_catch; [apply _ | | intros ?]
  | |- sat (then_catch _ _ _) _ =>
      apply sat_then_catch; [apply _ | intros ? | intros ?]
  | |- sat (if ?c then _ else _) _ => destruct c
  | |- sat (match ?c with _ => _ end) _ => destruct c
  | |- sat (emit _) _ => solve [leaf]
  | |- sat (modify _) _ => solve [leaf]
  | |- sat (on_page _) _ => solve [leaf]
  | |- sat (alloc _) _ => solve [leaf]
  | |- sat (alloc_all _) _ => solve [leaf]
  | |- sat (task _) _ => unfold task
  | |- sat (call _) _ => unfold call
  | |- sat (alert _) _ => unfold alert
  | |- sat (setItem _ _ _) _ => unfold setItem
  | |- sat (navigate _) _ => unfold navigate
  | |- sat (this_get _) _ => unfold this_get
  | |- sat (this_set _) _ => unfold this_set
  | |- sat (obj_get _) _ => unfold obj_get
  | |- sat (obj_update _ _) _ => unfold obj_update
  | |- sat (find_by_name _ _) _ => unfold find_by_name
  | |- sat (requestAnimationFrame _) _ => unfold requestAnimationFrame
  | |- sat onNoXRDevice _ => unfold onNoXRDevice
  | |- sat (drawImage_canvas _ _ _ _ _ _ _ _ _) _ => unfold drawImage_canvas
  end.

Ltac sat_struct leaf := repeat sat_step leaf.

(** The frame callback of a capture touches the page only: the fields of
    [this], the scene objects, the frame callbacks and the listeners are
    what they were, and it requests no animation frame. *)
Lemma captureImage_frame_no_raf env frame :
  sat (captureImage_frame env frame)
      (adds (fun e => negb (is_RequestAnimationFrame e))).
Proof.
  unfold captureImage_frame, getCamerafeed, video_onloadeddata,
    combineCanvases, bannerImage_onload, bannerImage_onerror.
  sat_struct sat_adds_leaf.
Qed.

Lemma captureImage_frame_keeps env frame :
  sat (captureImage_frame env frame)
      (keeps (fun w => (this w, heap w, rafQueue w, pendingLoads w,
                        selectListener w, enterArListener w,
                        captureContainer_display w))).
Proof.
  unfold captureImage_frame, getCamerafeed, video_onloadeddata,
    combineCanvases, bannerImage_onload, bannerImage_onerror.
  sat_struct sat_keeps_leaf.
Qed.

(** C5.  When the banner image fails to load, [combineCanvases] shows the
    alert 'Failed to load the banner image.' and leaves the hand-off
    state alone: it makes no [setItem] call and no navigation, and
    [localStorage] and the location are what they were. *)
Theorem combineCanvases_banner_error (env : CaptureEnv)
    (arCanvas cameraCanvas : Canvas) (w : World) :
  banner_load env = LoadError ->
  let r := run (combineCanvases env arCanvas cameraCanvas) w in
  let evs := added (combineCanvases env arCanvas cameraCanvas) w in
  threw r = false
  /\ Alert "Failed to load the banner image." ∈ evs
  /\ filter (fun e => is_SetItem e || is_Navigate e) evs = []
  /\ localStorage (page (state_of r)) = localStorage (page w)
  /\ location (page (state_of r)) = location (page w).
Proof.
  intros Hload r evs. subst r evs.
  unfold combineCanvases. js_run. rewrite Hload. js_run.
  repeat split; try reflexivity. trace_mem.
Qed.

(** C2.  On the successful capture path (the banner loads, both canvases
    have an area, the canvas serialises and the storage accepts the
    value), [combineCanvases] makes exactly one [setItem] call, which
    stores the result of [toDataURL('image/png')] under the key
    'capturedImage', and then navigates to 'review.html'.  On every
    path, a navigation is preceded by that one [setItem] call, and the
    entry is in [localStorage]. *)
Theorem combineCanvases_stores_then_navigates (env : CaptureEnv)
    (arCanvas cameraCanvas : Canvas) (w : World) :
  let evs := added (combineCanvases env arCanvas cameraCanvas) w in
  let w' := state_of (run (combineCanvases env arCanvas cameraCanvas) w) in
  (forall bw bh url,
      banner_load env = Loaded bw bh ->
      width arCanvas <> 0 -> height arCanvas <> 0 ->
      width cameraCanvas <> 0 -> height cameraCanvas <> 0 ->
      toDataURL_result env = Resolved url ->
      storage_fits env = true ->
      filter is_SetItem evs = [SetItem "capturedImage" url]
      /\ filter is_Navigate evs = [Navigate "review.html"]
      /\ ToDataURL "finalCanvas" "image/png" ∈ evs
      /\ localStorage (page w') !! "capturedImage" = Some url
      /\ location (page w') = Some "review.html")
  /\ (forall u,
      Navigate u ∈ evs ->
      exists url pre post,
        evs = pre ++ SetItem "capturedImage" url :: post
        /\ filter is_Navigate pre = []
        /\ filter is_SetItem pre = []
        /\ filter is_SetItem post = []
        /\ toDataURL_result env = Resolved url
        /\ localStorage (page w') !! "capturedImage" = Some url).
Proof.
  intros evs w'. subst evs w'. split.
  - intros bw bh url Hload Haw Hah Hcw Hch Hurl Hfits.
    apply Z.eqb_neq in Haw, Hah, Hcw, Hch.
    unfold combineCanvases, bannerImage_onload, drawImage_canvas, setItem.
    rewrite Hload, Haw, Hah, Hcw, Hch, Hurl, Hfits. js_run.
    repeat split; try reflexivity; [trace_mem | apply lookup_insert_eq].
  - intros u Hin.
    unfold combineCanvases, bannerImage_onload, drawImage_canvas, setItem in *.
    destruct (banner_load env) as [bw bh|];
      destruct ((width cameraCanvas =? 0)%Z || (height cameraCanvas =? 0)%Z);
      destruct ((width arCanvas =? 0)%Z || (height arCanvas =? 0)%Z);
      destruct (toDataURL_result env) as [url|e];
      destruct (storage_fits env);
      revert Hin; js_run; intros Hin; in_trace Hin.
    eexists url, [_; _; _; _; _; _; _; _; _; _], _.
    repeat split; try reflexivity. apply lookup_insert_eq.
Qed.

(** The two floors of [combineCanvases], as integer divisions. *)
Lemma targetHeight_div (h : Z) : targetHeight h = 3 * h / 4.
Proof. unfold targetHeight, Qfloor. simpl. reflexivity. Qed.

Lemma cropMargin_div (h : Z) : cropMargin h = (h - targetHeight h) / 2.
Proof.
  unfold cropMargin, Qfloor. simpl. rewrite Z.mul_1_r. reflexivity.
Qed.

(** C9.  For every AR canvas height [h >= 0], [targetHeight] is
    [floor(3*h/4)], [cropMargin] is [floor((h - targetHeight)/2)], and the
    rows [cropMargin .. cropMargin + targetHeight] lie within the canvas;
    [combineCanvases] crops exactly these rows in each canvas it draws from
    and gives the final canvas the height [targetHeight] plus the height of
    the banner. *)
Theorem combineCanvases_crop_in_bounds (h : Z) :
  0 <= h ->
  targetHeight h = 3 * h / 4
  /\ cropMargin h = (h - targetHeight h) / 2
  /\ 0 <= cropMargin h
  /\ 0 <= targetHeight h
  /\ cropMargin h + targetHeight h <= h
  /\ forall env arCanvas cameraCanvas w bw bh,
       height arCanvas = h ->
       banner_load env = Loaded bw bh ->
       let evs := added (combineCanvases env arCanvas cameraCanvas) w in
       filter (is_SetHeight_of "finalCanvas") evs
         = [SetHeight "finalCanvas" (targetHeight h + bh)]
       /\ forall src sx sy sw sh dx dy dw dh,
            DrawImage src sx sy sw sh dx dy dw dh ∈ evs ->
            sy = cropMargin h /\ sh = targetHeight h
            /\ 0 <= sy /\ sy + sh <= h.
Proof.
  intros Hh.
  pose proof (targetHeight_div h) as Ht.
  pose proof (cropMargin_div h) as Hc.
  assert (0 <= targetHeight h <= h) as Hth.
  { rewrite Ht. split.
    - apply Z.div_pos; lia.
    - apply Z.div_le_upper_bound; lia. }
  assert (0 <= cropMargin h /\ cropMargin h + targetHeight h <= h) as Hcm.
  { rewrite Hc. split.
    - apply Z.div_pos; lia.
    - assert ((h - targetHeight h) / 2 <= h - targetHeight h)
        by (apply Z.div_le_upper_bound; lia).
      lia. }
  split; [exact Ht|]. split; [exact Hc|].
  split; [apply Hcm|]. split; [apply Hth|]. split; [apply Hcm|].
  intros env arCanvas cameraCanvas w bw bh Hheight Hload evs. subst evs.
  unfold combineCanvases, bannerImage_onload, drawImage_canvas, setItem.
  rewrite Hload, Hheight.
  destruct ((width cameraCanvas =? 0)%Z || (height cameraCanvas =? 0)%Z);
    destruct ((width arCanvas =? 0)%Z || (h =? 0)%Z);
    destruct (toDataURL_result env) as [url|e];
    destruct (storage_fits env);
    js_run; (split; [reflexivity|]);
    intros src sx sy sw sh dx dy dw dh Hin; in_trace Hin;
    injection Hin as <- <- <- <- <- <- <- <- <-; lia.
Qed.

(** C4 (as amended).  When [getUserMedia] rejects, for instance because
    the camera permission is denied, [getCamerafeed] logs the error and
    shows a blocking alert.  In every case it asks for the camera at most
    once, and when the media-devices API is unavailable it does not ask. *)
Theorem getCamerafeed_rejection_reported (env : CaptureEnv) (arCanvas : Canvas)
    (w : World) :
  let evs := added (getCamerafeed env arCanvas) w in
  (forall e,
      mediaDevices env = true ->
      getUserMedia_defined env = true ->
      getUserMedia_result env = Rejected e ->
      threw (run (getCamerafeed env arCanvas) w) = false
      /\ ConsoleErrorExn "Error accessing media devices." e ∈ evs
      /\ Alert "Failed to access the camera. Please check your browser permissions." ∈ evs
      /\ filter is_GetUserMedia evs = [GetUserMedia])
  /\ (mediaDevices env && getUserMedia_defined env = false ->
      filter is_GetUserMedia evs = [])
  /\ (length (filter is_GetUserMedia evs) <= 1)%nat.
Proof.
  intros evs. subst evs. split; [|split].
  - intros e Hmd Hgum Hres.
    unfold getCamerafeed. rewrite Hmd, Hgum, Hres. js_run.
    repeat split; try reflexivity; trace_mem.
  - intros Hna. unfold getCamerafeed. rewrite Hna. js_run. reflexivity.
  - unfold getCamerafeed, video_onloadeddata, combineCanvases,
      bannerImage_onload, drawImage_canvas, setItem.
    js_exec; simpl; lia.
Qed.

Lemma captureImage_frame_fields env frame w :
  let w' := state_of (run (captureImage_frame env frame) w) in
  this w' = this w /\ heap w' = heap w /\ rafQueue w' = rafQueue w
  /\ pendingLoads w' = pendingLoads w
  /\ selectListener w' = selectListener w
  /\ enterArListener w' = enterArListener w
  /\ captureContainer_display w' = captureContainer_display w.
Proof.
  intros w'. pose proof (captureImage_frame_keeps env frame w) as Hk.
  unfold keeps in Hk. fold w' in Hk. clearbody w'.
  injection Hk. auto 10.
Qed.

(** *** Frame callbacks and the event loop *)

(** Everything [onXRFrame] does to a world, in one statement: without a
    session it throws at once; with one it first requests the next frame
    for itself and requests nothing else; it keeps what [Inv] reads and
    the listeners; and once the model is placed it changes no scene
    object. *)
Lemma onXRFrame_run frame w :
  let w' := state_of (run (onXRFrame frame) w) in
  (xrSession (this w) = None -> w' = w)
  /\ (forall s, xrSession (this w) = Some s ->
        (exists rest,
            trace (page w') =
              trace (page w) ++ RequestAnimationFrame CbOnXRFrame :: rest
            /\ filter is_RequestAnimationFrame rest = [])
        /\ rafQueue w' = rafQueue w ++ [CbOnXRFrame])
  /\ skeleton w' = skeleton w
  /\ xrSession (this w') = xrSession (this w)
  /\ (selectListener w', enterArListener w', captureContainer_display w')
      = (selectListener w, enterArListener w, captureContainer_display w)
  /\ (modelCloned (this w) = true ->
        heap w' = heap w /\ reticle (this w') = reticle (this w)).
Proof.
  unfold skeleton, onXRFrame, requestAnimationFrame.
  js_exec;
    (split; [intros Hs; try congruence; destruct w as [[] []]; reflexivity|]);
    (split; [intros s Hs; try congruence;
             (split; [eexists; split; [reflexivity|reflexivity]|reflexivity])|]);
    (split; [rewrite ?length_alter; congruence|]);
    (split; [congruence|]);
    (split; [congruence|]);
    intros Hc; destruct (modelCloned (this w)); simpl in *; try discriminate;
    split; congruence.
Qed.

Lemma onXRFrame_skeleton frame : sat (onXRFrame frame) (keeps skeleton).
Proof. intros w. apply (onXRFrame_run frame w). Qed.

#[global] Instance placed_frozen_preorder : PreOrder placed_frozen.
Proof.
  split.
  - intros w Hc. auto.
  - intros w1 w2 w3 H12 H23 Hc. unfold placed_frozen in *.
    destruct (H12 Hc) as (Hc2 & Hr2 & Hh2).
    destruct (H23 Hc2) as (Hc3 & Hr3 & Hh3).
    repeat split; congruence.
Qed.

Lemma onXRFrame_frozen frame : sat (onXRFrame frame) placed_frozen.
Proof.
  intros w Hc.
  destruct (onXRFrame_run frame w) as (_ & _ & Hsk & _ & _ & Hfr).
  destruct (Hfr Hc) as [Hh Hr]. unfold skeleton in Hsk.
  repeat split; congruence.
Qed.

Lemma captureImage_frame_skeleton env frame :
  sat (captureImage_frame env frame) (keeps skeleton).
Proof.
  intros w. unfold keeps, skeleton.
  destruct (captureImage_frame_fields env frame w) as (-> & -> & _ & -> & _).
  reflexivity.
Qed.

Lemma captureImage_frame_frozen env frame :
  sat (captureImage_frame env frame) placed_frozen.
Proof.
  intros w Hc.
  destruct (captureImage_frame_fields env frame w) as (Ht & Hh & _).
  repeat split; congruence.
Qed.

(** A summary that every frame callback has, and that reporting an
    uncaught exception has, is one of the whole frame. *)
Lemma animationFrame_sat (R : relation World) `{!PreOrder R} env frame :
  (forall f, sat (onXRFrame f) R) ->
  (forall e f, sat (captureImage_frame e f) R) ->
  (forall e, sat (emit (Uncaught e)) R) ->
  (forall q, sat (modify (set_rafQueue q)) R) ->
  sat (animationFrame env frame) R.
Proof.
  intros Hx Hc Hu Hq. unfold animationFrame.
  apply sat_bind; [apply _ | apply sat_gets; apply _ | intros cbs].
  apply sat_bind; [apply _ | apply Hq | intros _].
  induction cbs as [|cb cbs IH]; cbn [run_callbacks].
  - apply sat_ret; apply _.
  - apply sat_bind; [apply _ | | intros _; exact IH].
    apply sat_try_catch; [apply _ | | exact Hu].
    destruct cb; cbn [run_callback]; auto.
Qed.

Lemma animationFrame_skeleton env frame :
  sat (animationFrame env frame) (keeps skeleton).
Proof.
  apply animationFrame_sat; try apply _.
  - apply onXRFrame_skeleton.
  - apply captureImage_frame_skeleton.
  - intros e w. reflexivity.
  - intros q w. reflexivity.
Qed.

Lemma animationFrame_frozen env frame :
  sat (animationFrame env frame) placed_frozen.
Proof.
  apply animationFrame_sat; try apply _.
  - apply onXRFrame_frozen.
  - apply captureImage_frame_frozen.
  - intros e w Hc. auto.
  - intros q w Hc. auto.
Qed.

Lemma run_bind {A B} (m : JS World A) (f : A -> JS World B) (w : World) :
  run (m ≫= f) w =
    match run m w with
    | Ok a s => run (f a) s
    | Throw e s => Throw e s
    end.
Proof. reflexivity. Qed.

(** A task does not throw, and what it adds to the state of its body is
    on the page. *)
Lemma task_ok (m : JS World unit) (w : World) :
  run (task m) w = Ok tt (state_of (run (task m) w)).
Proof.
  unfold task. simpl. destruct (run m w) as [[] w1|e w1]; reflexivity.
Qed.

Lemma task_state {B} (f : World -> B) (m : JS World unit) (w : World) :
  (forall p w0, f (set_page p w0) = f w0) ->
  f (state_of (run (task m) w)) = f (state_of (run m w)).
Proof.
  intros Hf. unfold task. simpl.
  destruct (run m w) as [[] w1|e w1]; simpl; [reflexivity|].
  apply (Hf (emitP (Uncaught e) (page w1)) w1).
Qed.

Lemma task_state_requests (m : JS World unit) (w : World) :
  length (filter is_RequestSession (trace (page (state_of (run (task m) w)))))
  = length (filter is_RequestSession (trace (page (state_of (run m w))))).
Proof.
  unfold task. simpl. destruct (run m w) as [[] w1|e w1]; simpl; [reflexivity|].
  rewrite filter_app, length_app. simpl. lia.
Qed.

(** The callbacks of a frame leave on the list one request per run of
    [onXRFrame], and none for a capture. *)
Lemma run_callbacks_queue env frame cbs : forall w s,
  xrSession (this w) = Some s ->
  let w' := state_of (run (run_callbacks env frame cbs) w) in
  xrSession (this w') = Some s
  /\ rafQueue w' = rafQueue w ++ filter (fun cb => cb = CbOnXRFrame) cbs.
Proof.
  induction cbs as [|cb cbs IH]; intros w s Hs; cbn [run_callbacks].
  - simpl. split; [exact Hs | symmetry; apply app_nil_r].
  - rewrite run_bind, task_ok.
    set (w1 := state_of (run (task (run_callback env frame cb)) w)).
    assert (xrSession (this w1) = Some s
            /\ rafQueue w1 = rafQueue w ++ filter (fun c => c = CbOnXRFrame) [cb])
      as [Hs1 Hq1].
    { pose proof (task_state (fun w0 => xrSession (this w0))
                    (run_callback env frame cb) w (fun _ _ => eq_refl)) as Ht1.
      pose proof (task_state rafQueue
                    (run_callback env frame cb) w (fun _ _ => eq_refl)) as Ht2.
      fold w1 in Ht1, Ht2. cbv beta in Ht1.
      destruct cb; cbn [run_callback] in Ht1, Ht2.
      - destruct (onXRFrame_run frame w) as (_ & Hraf & _ & Hx & _).
        destruct (Hraf s Hs) as [_ Hq].
        change (filter _ [CbOnXRFrame]) with [CbOnXRFrame].
        split; congruence.
      - destruct (captureImage_frame_fields env frame w) as (Hthis & _ & Hq & _).
        change (filter _ [CbCapture]) with (@nil Callback).
        rewrite app_nil_r. split; congruence. }
    destruct (IH w1 s Hs1) as [Hs2 Hq2].
    split; [exact Hs2|].
    rewrite Hq2, Hq1, <- app_assoc.
    change (cb :: cbs) with ([cb] ++ cbs). rewrite filter_app. reflexivity.
Qed.

(** *** Placement *)

Lemma set_position_y_self (o : Object3D) :
  set_position_y (vy (position o)) o = o.
Proof. destruct o as [n [x y z] v]. reflexivity. Qed.

(** The model after [onSelect] has worked on the scene: moving the
    shadow mesh to the model's height and hiding the reticle do not
    change the model, whichever object is the shadow mesh. *)
Lemma placed_model (hide : Object3D -> Object3D) (h : list Object3D)
    (p : Vector3) (m r : Ref) (shadow : option Ref) :
  (m < length h)%nat -> r <> m ->
  let h0 := alter (set_visible true) m (alter (set_position p) m h) in
  let h1 := match shadow with
            | Some m0 => alter (set_position_y (vy (position (h0 !!! m)))) m0 h0
            | None => h0
            end in
  alter hide r h1 !!! m = set_visible true (set_position p (h !!! m)).
Proof.
  intros Hlt Hne h0 h1.
  assert (h0 !!! m = set_visible true (set_position p (h !!! m))) as H0.
  { subst h0. rewrite list_lookup_total_alter_eq by (rewrite length_alter; lia).
    rewrite list_lookup_total_alter_eq by lia. reflexivity. }
  rewrite list_lookup_total_alter_ne by exact Hne.
  subst h1. destruct shadow as [m0|]; [|exact H0].
  destruct (decide (m0 = m)) as [->|Hm0].
  - rewrite list_lookup_total_alter_eq
      by (subst h0; rewrite !length_alter; lia).
    rewrite set_position_y_self. exact H0.
  - rewrite list_lookup_total_alter_ne by exact Hm0. exact H0.
Qed.

Lemma onSelect_noop w :
  modelCloned (this w) = true \/ sunflower (this w) = None ->
  run onSelect w = Ok tt w.
Proof.
  intros H. unfold onSelect. js_run.
  destruct H as [-> | ->]; [|destruct (negb _)]; reflexivity.
Qed.

Lemma onSelect_places w m r children :
  modelCloned (this w) = false ->
  sunflower (this w) = Some m ->
  reticle (this w) = Some r ->
  scene (this w) = Some children ->
  (m < length (heap w))%nat ->
  r <> m ->
  let res := run onSelect w in
  let w1 := state_of res in
  threw res = false
  /\ position (heap w1 !!! m) = position (heap w !!! r)
  /\ visible (heap w1 !!! m) = true
  /\ modelCloned (this w1) = true
  /\ captureContainer_display w1 = "flex"
  /\ length (heap w1) = length (heap w)
  /\ (scene (this w1), reticle (this w1), sunflower (this w1), pendingLoads w1)
     = (scene (this w), reticle (this w), sunflower (this w), pendingLoads w).
Proof.
  intros Hc Hm Hr Hs Hlt Hne res w1. subst res w1.
  unfold onSelect, find_by_name. js_run. rewrite Hc, Hm. js_run.
  rewrite Hr. js_run. rewrite Hs. js_run.
  match goal with |- context [find ?f children] =>
    destruct (find f children) as [m0|] eqn:Hfind end; js_run.
  - pose proof (placed_model Reticle_hide (heap w) (position (heap w !!! r))
                  m r (Some m0) Hlt Hne) as Hp.
    cbv zeta in Hp. rewrite Hp. rewrite !length_alter, Hm, Hr, Hs.
    repeat split.
  - pose proof (placed_model Reticle_hide (heap w) (position (heap w !!! r))
                  m r None Hlt Hne) as Hp.
    cbv zeta in Hp. rewrite Hp. rewrite !length_alter, Hm, Hr, Hs.
    repeat split.
Qed.

(** *** Reachable worlds are well formed *)

Ltac inv_close :=
  repeat split; intros; simplify_eq; eauto; try lia;
  try (intros ?; simplify_eq; lia).

Lemma Inv_skeleton w w' : skeleton w' = skeleton w -> Inv w -> Inv w'.
Proof.
  unfold skeleton, Inv. intros Hsk.
  injection Hsk as -> -> -> -> -> ->. auto.
Qed.

Lemma task_skeleton (m : JS World unit) (w : World) :
  skeleton (state_of (run (task m) w)) = skeleton (state_of (run m w)).
Proof. apply (task_state skeleton). reflexivity. Qed.

Lemma task_Inv (m : JS World unit) (w : World) :
  Inv (state_of (run m w)) -> Inv (state_of (run (task m) w)).
Proof. apply Inv_skeleton, task_skeleton. Qed.

Lemma onSelect_Inv w : Inv w -> Inv (state_of (run onSelect w)).
Proof.
  intros HI.
  destruct (modelCloned (this w)) eqn:Hc;
    [rewrite onSelect_noop by auto; exact HI|].
  destruct (sunflower (this w)) as [m|] eqn:Hm;
    [|rewrite onSelect_noop by auto; exact HI].
  pose proof HI as (H1 & H2 & H3 & H4).
  destruct (H2 m Hm) as (Hlt & [r Hr] & Hne).
  destruct (H1 r Hr) as (Hrlt & [children Hs]).
  assert (r <> m) as Hrm by congruence.
  destruct (onSelect_places w m r children Hc Hm Hr Hs Hlt Hrm)
    as (_ & _ & _ & Hc1 & _ & Hlen & Hrest).
  set (w1 := state_of (run onSelect w)) in *. clearbody w1.
  injection Hrest as Hs1 Hr1 Hm1 Hp1.
  unfold Inv. rewrite Hs1, Hr1, Hm1, Hp1, Hlen.
  split; [exact H1|]. split; [exact H2|]. split; [exact H3|].
  intros _. rewrite Hm. eauto.
Qed.

Lemma onGltfLoaded_Inv gltf w :
  Inv w -> is_Some (reticle (this w)) ->
  Inv (state_of (run (onGltfLoaded gltf) w)).
Proof.
  intros HI [r Hr].
  pose proof HI as (H1 & H2 & H3 & H4).
  destruct (H1 r Hr) as (Hrlt & [children Hs]).
  unfold onGltfLoaded.
  destruct (has_child "Sketchfab_model" gltf); js_run; [|exact HI].
  js_case; js_run; rewrite Hs; js_run;
    unfold Inv; cbn; rewrite length_alter, length_app, Hr; cbn;
    inv_close.
Qed.

Lemma activateXR_Inv env w : Inv w -> Inv (state_of (run (activateXR env) w)).
Proof.
  intros HI. pose proof HI as (H1 & H2 & H3 & H4).
  unfold activateXR, createXRCanvas, onSessionStarted, setupThreeJs,
    requestAnimationFrame, onNoXRDevice.
  js_exec; try exact HI; unfold Inv; cbn; rewrite ?length_app; cbn;
    (split; [intros r0 [= <-]; split; [lia|eauto]|]);
    (split; [intros m Hm; destruct (H2 m Hm) as (? & _ & _);
             repeat split; [lia|eauto|intros [= ?]; lia]|]);
    (split; [eauto|exact H4]).
Qed.

Lemma captureImage_skeleton : sat captureImage (keeps skeleton).
Proof. unfold captureImage. sat_struct sat_keeps_leaf. Qed.

Lemma script_Inv nav storage container prompt :
  Inv (state_of (run (script nav) (blank storage container prompt))).
Proof.
  unfold script, xrSupportCheck, App_constructor, onNoXRDevice.
  js_exec; unfold Inv; cbn; inv_close.
Qed.

Lemma handle_Inv i w : Inv w -> Inv (state_of (run (handle i) w)).
Proof.
  intros HI. destruct i as [env|gltf| |frame env|]; unfold handle.
  - rewrite run_bind. cbn [gets run].
    destruct (enterArListener w); [|exact HI].
    apply task_Inv, activateXR_Inv, HI.
  - rewrite run_bind. cbn [gets run].
    destruct (pendingLoads w) as [|n] eqn:Hn; [exact HI|].
    rewrite run_bind. cbn [modify run].
    apply task_Inv, onGltfLoaded_Inv.
    + destruct HI as (H1 & H2 & H3 & H4).
      unfold Inv. cbn.
      split; [exact H1|]. split; [exact H2|]. split; [|exact H4].
      intros _. apply H3. lia.
    + destruct HI as (_ & _ & H3 & _). cbn. apply H3. lia.
  - rewrite run_bind. cbn [gets run].
    destruct (selectListener w); [|exact HI].
    apply task_Inv, onSelect_Inv, HI.
  - apply (Inv_skeleton w); [|exact HI]. apply animationFrame_skeleton.
  - apply task_Inv. apply (Inv_skeleton w); [|exact HI].
    apply captureImage_skeleton.
Qed.

Lemma step_Inv w i : Inv w -> Inv (step w i).
Proof.
  intros HI. unfold step. destruct (location (page w)); [exact HI|].
  apply handle_Inv, HI.
Qed.

Lemma reachable_Inv w : reachable w -> Inv w.
Proof.
  induction 1 as [nav storage container prompt|w i _ IH].
  - apply script_Inv.
  - apply step_Inv, IH.
Qed.


(** *** The placed flag is never cleared *)

Lemma activateXR_placed env : sat (activateXR env) (keeps placed).
Proof.
  unfold activateXR, createXRCanvas, onSessionStarted, setupThreeJs.
  sat_struct sat_keeps_leaf.
Qed.

Lemma onGltfLoaded_placed gltf : sat (onGltfLoaded gltf) (keeps placed).
Proof. unfold onGltfLoaded. sat_struct sat_keeps_leaf. Qed.

Lemma onSelect_keeps_session :
  sat onSelect (keeps (fun w => (xrSession (this w), rafQueue w,
                                 enterArListener w))).
Proof. unfold onSelect. sat_struct sat_keeps_leaf. Qed.

(** Only a select event that finds the model loaded changes the placed
    flag. *)
Lemma handle_placed_eq i w :
  i <> SelectEvent \/ sunflower (this w) = None ->
  placed (state_of (run (handle i) w)) = placed w.
Proof.
  intros Hi. destruct i as [env|gltf| |frame env|]; unfold handle.
  - rewrite run_bind. cbn [gets run].
    destruct (enterArListener w); [|reflexivity].
    rewrite (task_state placed) by reflexivity.
    apply (activateXR_placed env w).
  - rewrite run_bind. cbn [gets run].
    destruct (pendingLoads w) as [|n]; [reflexivity|].
    rewrite run_bind. cbn [modify run].
    rewrite (task_state placed) by reflexivity.
    apply (onGltfLoaded_placed gltf (set_pendingLoads n w)).
  - destruct Hi as [Hi|Hnone]; [congruence|].
    rewrite run_bind. cbn [gets run].
    destruct (selectListener w); [|reflexivity].
    rewrite (task_state placed) by reflexivity.
    rewrite onSelect_noop by (right; exact Hnone). reflexivity.
  - pose proof (animationFrame_skeleton env frame w) as Hk.
    unfold keeps, skeleton in Hk.
    set (w' := state_of _) in *. clearbody w'.
    unfold placed. congruence.
  - rewrite (task_state placed) by reflexivity.
    pose proof (captureImage_skeleton w) as Hk.
    unfold keeps, skeleton in Hk.
    set (w' := state_of _) in *. clearbody w'.
    unfold placed. congruence.
Qed.

Lemma handle_placed i w :
  placed w = true -> placed (state_of (run (handle i) w)) = true.
Proof.
  intros Hp.
  destruct i;
    try (rewrite handle_placed_eq by (left; discriminate); exact Hp).
  unfold handle. rewrite run_bind. cbn [gets run].
  destruct (selectListener w); [|exact Hp].
  rewrite (task_state placed) by reflexivity.
  rewrite onSelect_noop by (left; exact Hp). exact Hp.
Qed.

Lemma step_sets_placed w i :
  placed w = false -> placed (step w i) = true ->
  i = SelectEvent /\ is_Some (sunflower (this w)).
Proof.
  intros Hf Ht. unfold step in Ht.
  destruct (location (page w)); [congruence|].
  destruct i;
    try (rewrite handle_placed_eq in Ht by (left; discriminate); congruence).
  split; [reflexivity|].
  destruct (sunflower (this w)) as [m|] eqn:Hm; [eauto|].
  rewrite handle_placed_eq in Ht by (right; exact Hm). congruence.
Qed.

Lemma step_placed w i : placed w = true -> placed (step w i) = true.
Proof.
  intros Hp. unfold step. destruct (location (page w)); [exact Hp|].
  apply handle_placed, Hp.
Qed.

Lemma steps_placed inputs : forall w,
  placed w = true -> placed (steps w inputs) = true.
Proof.
  induction inputs as [|i inputs IH]; intros w Hp; simpl; [exact Hp|].
  apply IH, step_placed, Hp.
Qed.

Lemma onGltfLoaded_sets gltf w children :
  has_child "Sketchfab_model" gltf = true ->
  scene (this w) = Some children ->
  let w' := state_of (run (onGltfLoaded gltf) w) in
  sunflower (this w') = Some (length (heap w))
  /\ modelCloned (this w') = modelCloned (this w).
Proof.
  intros Hchild Hs w'. subst w'. unfold onGltfLoaded. rewrite Hchild.
  js_run. js_case; js_run; rewrite Hs; js_run; split; reflexivity.
Qed.

(** *** The handlers of the event loop, by summary *)

Lemma handle_sat (R : relation World) `{!PreOrder R} i :
  (forall env, i = ClickEnterAR env -> sat (activateXR env) R) ->
  (forall gltf, sat (onGltfLoaded gltf) R) ->
  (i = SelectEvent -> sat onSelect R) ->
  (forall f, sat (onXRFrame f) R) ->
  (forall e f, sat (captureImage_frame e f) R) ->
  sat captureImage R ->
  (forall e, sat (emit (Uncaught e)) R) ->
  (forall q, sat (modify (set_rafQueue q)) R) ->
  (forall n, sat (modify (set_pendingLoads n)) R) ->
  sat (handle i) R.
Proof.
  intros Ha Hg Hs Hx Hc Hcap Hu Hq Hn.
  destruct i as [env|gltf| |frame env|]; unfold handle.
  - apply sat_bind; [apply _ | apply sat_gets; apply _ | intros []].
    + apply sat_task; [apply _ | apply Ha; reflexivity | exact Hu].
    + apply sat_ret; apply _.
  - apply sat_bind; [apply _ | apply sat_gets; apply _ | intros [|n]].
    + apply sat_ret; apply _.
    + apply sat_bind; [apply _ | apply Hn | intros _].
      apply sat_task; [apply _ | apply Hg | exact Hu].
  - apply sat_bind; [apply _ | apply sat_gets; apply _ | intros []].
    + apply sat_task; [apply _ | apply Hs; reflexivity | exact Hu].
    + apply sat_ret; apply _.
  - apply animationFrame_sat; auto.
  - apply sat_task; [apply _ | exact Hcap | exact Hu].
Qed.

Lemma step_sat (R : relation World) `{!PreOrder R} w i :
  sat (handle i) R -> R w (step w i).
Proof.
  intros Hh. unfold step. destruct (location (page w)); [reflexivity|].
  apply Hh.
Qed.

(** *** No handler but [activateXR] requests a session *)

#[local] Abbreviation no_request :=
  (adds (fun e => negb (is_RequestSession e))).

Lemma no_request_requests w w' : no_request w w' -> requests w' = requests w.
Proof.
  intros (evs & Htr & Hevs). unfold requests.
  rewrite Htr, filter_app, (filter_none _ _ Hevs), app_nil_r. reflexivity.
Qed.

Lemma onXRFrame_no_request frame : sat (onXRFrame frame) no_request.
Proof. unfold onXRFrame. sat_struct sat_adds_leaf. Qed.

Lemma captureImage_frame_no_request env frame :
  sat (captureImage_frame env frame) no_request.
Proof.
  unfold captureImage_frame, getCamerafeed, video_onloadeddata,
    combineCanvases, bannerImage_onload, bannerImage_onerror.
  sat_struct sat_adds_leaf.
Qed.

Lemma handle_no_request i :
  is_ClickEnterAR i = false -> sat (handle i) no_request.
Proof.
  intros Hi. apply handle_sat; try apply _.
  - intros env ->. discriminate.
  - intros gltf. unfold onGltfLoaded. sat_struct sat_adds_leaf.
  - intros _. unfold onSelect. sat_struct sat_adds_leaf.
  - apply onXRFrame_no_request.
  - apply captureImage_frame_no_request.
  - unfold captureImage. sat_struct sat_adds_leaf.
  - intros e. sat_adds_leaf.
  - intros q. sat_adds_leaf.
  - intros n. sat_adds_leaf.
Qed.

(** [activateXR] requests a session exactly once, whatever happens. *)
Lemma activateXR_requests env w :
  requests (state_of (run (activateXR env) w)) = S (requests w).
Proof.
  unfold requests, activateXR, createXRCanvas, onSessionStarted, setupThreeJs,
    requestAnimationFrame, onNoXRDevice.
  js_exec; rewrite filter_app, length_app; simpl; lia.
Qed.

Lemma activateXR_keeps_button env : sat (activateXR env) (keeps enterArListener).
Proof.
  unfold activateXR, createXRCanvas, onSessionStarted, setupThreeJs.
  sat_struct sat_keeps_leaf.
Qed.

Lemma handle_keeps_button i : sat (handle i) (keeps enterArListener).
Proof.
  apply handle_sat; try apply _.
  - intros env _. apply activateXR_keeps_button.
  - intros gltf. unfold onGltfLoaded. sat_struct sat_keeps_leaf.
  - intros _. unfold onSelect. sat_struct sat_keeps_leaf.
  - intros f. unfold onXRFrame. sat_struct sat_keeps_leaf.
  - intros e f w. apply (captureImage_frame_fields e f w).
  - unfold captureImage. sat_struct sat_keeps_leaf.
  - intros e. sat_keeps_leaf.
  - intros q. sat_keeps_leaf.
  - intros n. sat_keeps_leaf.
Qed.

Lemma step_requests w i :
  enterArListener (step w i) = enterArListener w
  /\ (requests (step w i) <= requests w + clicks [i])%nat
  /\ (enterArListener w = false -> requests (step w i) = requests w).
Proof.
  split; [apply (step_sat (keeps enterArListener)), handle_keeps_button|].
  destruct (is_ClickEnterAR i) eqn:Hi.
  - destruct i as [env| | | |]; try discriminate. unfold step.
    destruct (location (page w)); [split; [simpl; lia | reflexivity]|].
    unfold handle. rewrite run_bind. cbn [gets run].
    destruct (enterArListener w); [|split; [simpl; lia | reflexivity]].
    unfold requests. rewrite (task_state_requests (activateXR env) w).
    fold (requests (state_of (run (activateXR env) w))) (requests w).
    rewrite activateXR_requests.
    change (clicks [ClickEnterAR env]) with 1%nat.
    split; [lia | discriminate].
  - pose proof (step_sat no_request w i (handle_no_request i Hi)) as Hno.
    apply no_request_requests in Hno. rewrite Hno. split; [lia | reflexivity].
Qed.

Lemma steps_requests inputs : forall w,
  enterArListener (steps w inputs) = enterArListener w
  /\ (requests (steps w inputs) <= requests w + clicks inputs)%nat
  /\ (enterArListener w = false -> requests (steps w inputs) = requests w).
Proof.
  induction inputs as [|i inputs IH]; intros w; simpl.
  - split; [reflexivity|]. split; [lia | reflexivity].
  - destruct (step_requests w i) as (Hb1 & Hle1 & Hz1).
    destruct (IH (step w i)) as (Hb2 & Hle2 & Hz2).
    split; [congruence|]. split.
    + change (i :: inputs) with ([i] ++ inputs).
      unfold clicks in *. rewrite filter_app, length_app. lia.
    + intros Hoff. rewrite Hz2 by congruence. apply Hz1, Hoff.
Qed.

(** The page of a device without AR: the fallback was shown, the button
    has no handler, and no session was requested. *)
Lemma script_unsupported nav storage container prompt :
  unsupported nav ->
  let w0 := state_of (run (script nav) (blank storage container prompt)) in
  NoXRDevice ∈ trace (page w0)
  /\ enterArListener w0 = false
  /\ requests w0 = 0%nat.
Proof.
  intros Hno w0. subst w0.
  unfold script, xrSupportCheck, App_constructor, onNoXRDevice.
  destruct Hno as [Hno|[Hno|Hno]]; rewrite Hno;
    js_exec; (split; [trace_mem | split; reflexivity]).
Qed.

(** C6.  When [immersive-ar] is unsupported, the support check calls
    [onNoXRDevice], attaches no click handler and asks for no session;
    on such a page no input ever leads to a session request.  When the
    session request rejects with [e], [activateXR] logs [e], calls
    [onNoXRDevice], and has asked for a session exactly once.  In every
    run of the page there are at most as many session requests as clicks
    on the button: no request is repeated by the code. *)
Theorem xr_failure_shows_fallback :
  (forall nav w,
      unsupported nav ->
      let r := run (xrSupportCheck nav) w in
      let evs := added (xrSupportCheck nav) w in
      threw r = false
      /\ NoXRDevice ∈ evs
      /\ filter is_AddEventListener evs = []
      /\ filter is_RequestSession evs = []
      /\ enterArListener (state_of r) = enterArListener w)
  /\ (forall nav storage container prompt inputs,
      unsupported nav ->
      let w0 := state_of (run (script nav) (blank storage container prompt)) in
      NoXRDevice ∈ trace (page w0)
      /\ filter is_RequestSession (trace (page (steps w0 inputs))) = [])
  /\ (forall env e w,
      requestSession_result env = Rejected e ->
      threw (run (activateXR env) w) = false
      /\ added (activateXR env) w
           = [RequestSession "immersive-ar"; ConsoleLogExn e; NoXRDevice]
      /\ this (state_of (run (activateXR env) w)) = this w)
  /\ (forall w inputs,
      (requests (steps w inputs) <= requests w + clicks inputs)%nat).
Proof.
  split; [|split; [|split]].
  - intros nav w Hno r evs. subst r evs. unfold xrSupportCheck.
    destruct Hno as [Hno|[Hno|Hno]]; rewrite Hno;
      js_exec; repeat split; try reflexivity; trace_mem.
  - intros nav storage container prompt inputs Hno w0.
    destruct (script_unsupported nav storage container prompt Hno)
      as (Hshown & Hoff & Hzero).
    fold w0 in Hshown, Hoff, Hzero. split; [exact Hshown|].
    destruct (steps_requests inputs w0) as (_ & _ & Hsame).
    specialize (Hsame Hoff). rewrite Hzero in Hsame.
    unfold requests in Hsame. apply length_zero_iff_nil, Hsame.
  - intros env e w Hrej. unfold activateXR. rewrite Hrej. js_run.
    repeat split; reflexivity.
  - intros w inputs. apply (steps_requests inputs w).
Qed.

(** *** Frame callbacks belong to a session *)

Lemma session_ok_task (m : JS World unit) (w : World) :
  session_ok (state_of (run m w)) -> session_ok (state_of (run (task m) w)).
Proof.
  unfold session_ok.
  rewrite (task_state (fun w0 => xrSession (this w0))) by reflexivity.
  rewrite (task_state rafQueue) by reflexivity. auto.
Qed.

Lemma session_ok_keeps (w w' : World) :
  keeps (fun w0 => (xrSession (this w0), rafQueue w0, enterArListener w0)) w w' ->
  session_ok w -> session_ok w'.
Proof.
  unfold keeps, session_ok. intros Hk Hok.
  injection Hk as Hx Hq _. rewrite Hx, Hq. exact Hok.
Qed.

Lemma onGltfLoaded_keeps_session gltf :
  sat (onGltfLoaded gltf)
      (keeps (fun w => (xrSession (this w), rafQueue w, enterArListener w))).
Proof. unfold onGltfLoaded. sat_struct sat_keeps_leaf. Qed.

Lemma activateXR_session_ok env w :
  session_ok w -> session_ok (state_of (run (activateXR env) w)).
Proof.
  intros Hok.
  unfold session_ok, activateXR, createXRCanvas, onSessionStarted,
    setupThreeJs, requestAnimationFrame, onNoXRDevice in *.
  js_exec; cbn; intros Hnone; try discriminate Hnone; auto.
Qed.

Lemma captureImage_session_ok w :
  session_ok w -> session_ok (state_of (run captureImage w)).
Proof.
  intros Hok. unfold session_ok, captureImage, requestAnimationFrame in *.
  js_exec; cbn; intros Hnone; try congruence; auto.
Qed.

Lemma animationFrame_session_ok env frame w :
  session_ok w -> session_ok (state_of (run (animationFrame env frame) w)).
Proof.
  intros Hok. unfold animationFrame.
  rewrite run_bind. cbn [gets run]. rewrite run_bind. cbn [modify run].
  destruct (xrSession (this w)) as [s|] eqn:Hs.
  - destruct (run_callbacks_queue env frame (rafQueue w)
                (set_rafQueue [] w) s Hs) as [Hs' _].
    intros Hnone. congruence.
  - rewrite (Hok Hs). cbn. intros _. reflexivity.
Qed.

Lemma handle_session_ok i w :
  session_ok w -> session_ok (state_of (run (handle i) w)).
Proof.
  intros Hok. destruct i as [env|gltf| |frame env|]; unfold handle.
  - rewrite run_bind. cbn [gets run].
    destruct (enterArListener w); [|exact Hok].
    apply session_ok_task, activateXR_session_ok, Hok.
  - rewrite run_bind. cbn [gets run].
    destruct (pendingLoads w) as [|n]; [exact Hok|].
    rewrite run_bind. cbn [modify run].
    apply session_ok_task.
    apply (session_ok_keeps (set_pendingLoads n w));
      [apply onGltfLoaded_keeps_session | exact Hok].
  - rewrite run_bind. cbn [gets run].
    destruct (selectListener w); [|exact Hok].
    apply session_ok_task.
    apply (session_ok_keeps w); [apply onSelect_keeps_session | exact Hok].
  - apply animationFrame_session_ok, Hok.
  - apply session_ok_task, captureImage_session_ok, Hok.
Qed.

Lemma reachable_session_ok w : reachable w -> session_ok w.
Proof.
  induction 1 as [nav storage container prompt|w i _ IH].
  - unfold session_ok, script, xrSupportCheck, App_constructor, onNoXRDevice.
    js_exec; reflexivity.
  - unfold step. destruct (location (page w)); [exact IH|].
    apply handle_session_ok, IH.
Qed.

(** In a reachable world, a frame leaves on the list of frame callbacks
    one [onXRFrame] for each one it ran, and nothing else. *)
Lemma animationFrame_queue env frame w :
  session_ok w ->
  rafQueue (state_of (run (animationFrame env frame) w))
  = filter (fun cb => cb = CbOnXRFrame) (rafQueue w).
Proof.
  intros Hok. unfold animationFrame.
  rewrite run_bind. cbn [gets run]. rewrite run_bind. cbn [modify run].
  destruct (xrSession (this w)) as [s|] eqn:Hs.
  - destruct (run_callbacks_queue env frame (rafQueue w)
                (set_rafQueue [] w) s Hs) as [_ Hq].
    exact Hq.
  - rewrite (Hok Hs). reflexivity.
Qed.
(** *** Placement and frames: the main properties *)

(** C3.  The model is placed at most once.  The placed flag is false
    when the script has run and stays false until a select event finds
    the model loaded.  That select copies the position of the reticle into
    the model, makes the model visible and sets the flag.  Whatever
    happens afterwards, the flag stays set and [onSelect] is a no-op: it
    returns in the world it started in, so the model's position, the flag
    and the display of the capture container are unchanged. *)
Theorem model_placed_once :
  (forall nav storage container prompt,
      modelCloned (this (state_of (run (script nav)
                                       (blank storage container prompt))))
      = false)
  /\ (forall w i,
      modelCloned (this w) = false ->
      modelCloned (this (step w i)) = true ->
      i = SelectEvent /\ is_Some (sunflower (this w)))
  /\ (forall w m,
      reachable w ->
      modelCloned (this w) = false ->
      sunflower (this w) = Some m ->
      let w1 := state_of (run onSelect w) in
      (exists r, reticle (this w) = Some r
                 /\ position (heap w1 !!! m) = position (heap w !!! r))
      /\ visible (heap w1 !!! m) = true
      /\ modelCloned (this w1) = true
      /\ forall inputs,
           let w2 := steps w1 inputs in
           let w3 := state_of (run onSelect w2) in
           modelCloned (this w2) = true
           /\ run onSelect w2 = Ok tt w2
           /\ position (heap w3 !!! m) = position (heap w2 !!! m)
           /\ modelCloned (this w3) = true
           /\ captureContainer_display w3 = captureContainer_display w2).
Proof.
  split; [|split].
  - intros nav storage container prompt.
    unfold script, xrSupportCheck, App_constructor, onNoXRDevice.
    js_exec; reflexivity.
  - exact step_sets_placed.
  - intros w m Hreach Hc Hm w1.
    pose proof (reachable_Inv w Hreach) as (H1 & H2 & _).
    destruct (H2 m Hm) as (Hlt & [r Hr] & Hne).
    destruct (H1 r Hr) as (_ & [children Hs]).
    assert (r <> m) as Hrm by congruence.
    destruct (onSelect_places w m r children Hc Hm Hr Hs Hlt Hrm)
      as (_ & Hpos & Hvis & Hc1 & _).
    fold w1 in Hpos, Hvis, Hc1.
    split; [exists r; split; [exact Hr | exact Hpos]|].
    split; [exact Hvis|]. split; [exact Hc1|].
    intros inputs w2 w3.
    assert (modelCloned (this w2) = true) as Hc2
      by (apply (steps_placed inputs w1), Hc1).
    assert (run onSelect w2 = Ok tt w2) as Hnoop
      by (apply onSelect_noop; left; exact Hc2).
    subst w3. rewrite Hnoop. simpl. auto.
Qed.

(** C8.  In a reachable world where the model has not finished loading
    ([this.sunflower] is unset), a select event is a complete no-op:
    [onSelect] returns in the world it started in, so the placed flag is
    still false, the capture container keeps its display and the reticle
    is untouched.  When the model then loads, the next select performs
    the placement. *)
Theorem select_before_load_is_noop (w : World) :
  reachable w ->
  sunflower (this w) = None ->
  let w0 := state_of (run onSelect w) in
  run onSelect w = Ok tt w
  /\ step w SelectEvent = w
  /\ modelCloned (this w0) = false
  /\ captureContainer_display w0 = captureContainer_display w
  /\ heap w0 = heap w
  /\ forall gltf,
       has_child "Sketchfab_model" gltf = true ->
       (0 < pendingLoads w)%nat ->
       location (page w) = None ->
       let w1 := step w0 (GltfLoad gltf) in
       let w2 := state_of (run onSelect w1) in
       exists m r,
         sunflower (this w1) = Some m
         /\ reticle (this w1) = Some r
         /\ modelCloned (this w1) = false
         /\ modelCloned (this w2) = true
         /\ visible (heap w2 !!! m) = true
         /\ position (heap w2 !!! m) = position (heap w1 !!! r)
         /\ captureContainer_display w2 = "flex".
Proof.
  intros Hreach Hnone w0.
  assert (run onSelect w = Ok tt w) as Hnoop
    by (apply onSelect_noop; right; exact Hnone).
  pose proof (reachable_Inv w Hreach) as HI.
  assert (modelCloned (this w) = false) as Hc.
  { destruct HI as (_ & _ & _ & H4).
    destruct (modelCloned (this w)); [|reflexivity].
    destruct (H4 eq_refl) as [m Hm]. congruence. }
  subst w0. rewrite Hnoop. cbn [state_of].
  split; [reflexivity|].
  split.
  { unfold step, handle. destruct (location (page w)); [reflexivity|].
    rewrite run_bind. cbn [gets run].
    destruct (selectListener w); [|reflexivity].
    unfold task, try_catch. cbn [run]. rewrite Hnoop. reflexivity. }
  split; [exact Hc|]. split; [reflexivity|]. split; [reflexivity|].
  intros gltf Hchild Hpending Hloc.
  set (w1 := step w (GltfLoad gltf)).
  assert (Inv w1) as HI1 by (apply step_Inv, HI).
  destruct HI as (H1 & _ & H3 & _).
  destruct (H3 Hpending) as [r Hr].
  destruct (H1 r Hr) as (_ & [children Hs]).
  assert (sunflower (this w1) = Some (length (heap w))
          /\ modelCloned (this w1) = false) as [Hm1 Hc1].
  { subst w1. unfold step, handle. rewrite Hloc.
    rewrite run_bind. cbn [gets run].
    destruct (pendingLoads w) as [|n]; [lia|].
    rewrite run_bind. cbn [modify run].
    rewrite (task_state (fun w => sunflower (this w))) by reflexivity.
    rewrite (task_state (fun w => modelCloned (this w))) by reflexivity.
    destruct (onGltfLoaded_sets gltf (set_pendingLoads n w) children Hchild Hs)
      as [Hm' Hc']. cbv zeta in Hm', Hc'.
    rewrite Hm', Hc'. split; [reflexivity | exact Hc]. }
  pose proof HI1 as (H1' & H2' & _).
  destruct (H2' _ Hm1) as (Hlt & [r1 Hr1] & Hne).
  destruct (H1' r1 Hr1) as (_ & [children1 Hs1]).
  assert (r1 <> length (heap w)) as Hrm by congruence.
  destruct (onSelect_places w1 _ r1 children1 Hc1 Hm1 Hr1 Hs1 Hlt Hrm)
    as (_ & Hpos & Hvis & Hc2 & Hdisp & _).
  exists (length (heap w)), r1. auto 10.
Qed.

(** C10.  Once the placed flag is set, [onXRFrame] changes neither which
    object is the reticle nor any scene object, whatever the frame's
    hit-test results are; and so, after any further inputs, a frame of
    the session leaves the reticle's visibility and position as they
    were. *)
Theorem reticle_frozen_after_placement (w : World) :
  modelCloned (this w) = true ->
  (forall frame,
      let w' := state_of (run (onXRFrame frame) w) in
      modelCloned (this w') = true
      /\ reticle (this w') = reticle (this w)
      /\ heap w' = heap w)
  /\ (forall inputs frame env,
      let w1 := steps w inputs in
      let w2 := step w1 (AnimationFrame frame env) in
      reticle (this w2) = reticle (this w1)
      /\ forall r, reticle (this w1) = Some r ->
           visible (heap w2 !!! r) = visible (heap w1 !!! r)
           /\ position (heap w2 !!! r) = position (heap w1 !!! r)).
Proof.
  intros Hc. split.
  - intros frame w'. apply (onXRFrame_frozen frame w Hc).
  - intros inputs frame env w1 w2.
    assert (modelCloned (this w1) = true) as Hc1
      by (apply (steps_placed inputs w), Hc).
    assert (reticle (this w2) = reticle (this w1) /\ heap w2 = heap w1)
      as [Hr Hh].
    { subst w2. unfold step. destruct (location (page w1)); [auto|].
      cbn [handle].
      destruct (animationFrame_frozen env frame w1 Hc1) as (_ & Hr & Hh).
      auto. }
    split; [exact Hr|]. intros r _. rewrite Hh. auto.
Qed.

(** C7.  Every call of [onXRFrame] on a session first requests the next
    animation frame with [onXRFrame] itself as the callback, whatever the
    frame reports and whether or not the rest of the call throws, and it
    requests nothing else.  [captureImage] requests exactly one frame
    callback, and that callback requests none.  So, in every reachable
    world, a frame leaves on the list of frame callbacks one [onXRFrame]
    for each one it ran, and no capture callback. *)
Theorem frame_callbacks_rearm :
  (forall frame w s,
      xrSession (this w) = Some s ->
      let w' := state_of (run (onXRFrame frame) w) in
      (exists rest,
          added (onXRFrame frame) w = RequestAnimationFrame CbOnXRFrame :: rest
          /\ filter is_RequestAnimationFrame rest = [])
      /\ rafQueue w' = rafQueue w ++ [CbOnXRFrame])
  /\ (forall w s,
      xrSession (this w) = Some s ->
      let w' := state_of (run captureImage w) in
      filter is_RequestAnimationFrame (added captureImage w)
        = [RequestAnimationFrame CbCapture]
      /\ rafQueue w' = rafQueue w ++ [CbCapture])
  /\ (forall env frame w,
      let w' := state_of (run (captureImage_frame env frame) w) in
      filter is_RequestAnimationFrame (added (captureImage_frame env frame) w) = []
      /\ rafQueue w' = rafQueue w)
  /\ (forall env frame w,
      reachable w ->
      let w' := state_of (run (animationFrame env frame) w) in
      rafQueue w' = filter (fun cb => cb = CbOnXRFrame) (rafQueue w)).
Proof.
  split; [|split; [|split]].
  - intros frame w s Hs w'. subst w'.
    destruct (onXRFrame_run frame w) as (_ & Hraf & _).
    destruct (Hraf s Hs) as [(rest & Htr & Hrest) Hq].
    split; [|exact Hq].
    exists rest. split; [|exact Hrest].
    unfold added. rewrite Htr. apply events_since_app.
  - intros w s Hs w'. subst w'. unfold captureImage, requestAnimationFrame.
    js_run. rewrite Hs. js_run. split; reflexivity.
  - intros env frame w w'. subst w'. split.
    + apply filter_none.
      change (forallb (fun e => negb (is_RequestAnimationFrame e))
                (added (captureImage_frame env frame) w) = true).
      apply adds_added, captureImage_frame_no_raf.
    + apply (captureImage_frame_fields env frame w).
  - intros env frame w Hreach w'. subst w'.
    apply animationFrame_queue, reachable_session_ok, Hreach.
Qed.

(** ** Further properties of the capture screen *)

(** *** The support check and the session setup *)

(** X5.  What the script leaves behind, for every answer of the device.
    The button to enter AR gets its handler exactly when [immersive-ar]
    is supported; the fallback is shown exactly when it is unsupported;
    and when the support query itself rejects, the rejection escapes:
    there is neither a handler nor a fallback.  The query is made only
    where [navigator.xr.isSessionSupported] exists, and the capture
    button always gets its handler. *)
Theorem script_support_outcomes (nav : XRSupport)
    (storage : gmap string string) (container prompt : string) :
  let w0 := state_of (run (script nav) (blank storage container prompt)) in
  (enterArListener w0 = true
     <-> xr nav = true /\ isSessionSupported_defined nav = true
         /\ isSessionSupported_result nav = Resolved true)
  /\ (NoXRDevice ∈ trace (page w0) <-> unsupported nav)
  /\ (forall e, Uncaught e ∈ trace (page w0)
        <-> xr nav = true /\ isSessionSupported_defined nav = true
            /\ isSessionSupported_result nav = Rejected e)
  /\ (Call "navigator.xr.isSessionSupported" ∈ trace (page w0)
        <-> xr nav = true /\ isSessionSupported_defined nav = true)
  /\ filter is_AddEventListener (trace (page w0))
     = AddEventListener "capture-button" "click" "captureImage"
       :: (if enterArListener w0
           then [AddEventListener "enter-ar" "click" "activateXR"] else []).
Proof.
  intros w0. subst w0.
  unfold script, xrSupportCheck, App_constructor, onNoXRDevice, unsupported.
  destruct (xr nav); [destruct (isSessionSupported_defined nav);
    [destruct (isSessionSupported_result nav) as [[]|e]|]|];
    js_run;
    (split; [split; [intros H; try discriminate H; auto
                    | intros (H1 & H2 & H3); try discriminate; reflexivity]|]);
    (split; [split; [intros H; in_trace H; auto
                    | intros [H|[H|H]]; try discriminate; trace_mem]|]);
    (split; [intros e'; split;
               [ intros H; in_trace H; injection H as <-; auto
               | intros (H1 & H2 & H3); try discriminate;
                 injection H3 as <-; trace_mem ]|]);
    (split; [split; [intros H; in_trace H; auto
                    | intros (H1 & H2); try discriminate; trace_mem]|]);
    reflexivity.
Qed.

(** X6.  [activateXR] never lets an exception escape, and it shows the
    fallback exactly when some step of the setup fails.  When every step
    succeeds, the session is stored, the frame loop is started with one
    [onXRFrame] callback, [onSelect] listens, one model load is in
    flight, and the scene consists of new objects: the lit scene's
    children followed by the reticle.  When the session is granted but a
    later step fails, [this.xrSession] stays assigned although the
    fallback is shown, and [onSelect] does not listen. *)
Theorem activateXR_outcomes (env : SessionEnv) (w : World) :
  let r := run (activateXR env) w in
  let w' := state_of r in
  let evs := added (activateXR env) w in
  threw r = false
  /\ (NoXRDevice ∈ evs <-> forall s, ~ session_granted env s)
  /\ (forall s, session_granted env s ->
        xrSession (this w') = Some s
        /\ rafQueue w' = [CbOnXRFrame]
        /\ selectListener w' = true
        /\ pendingLoads w' = S (pendingLoads w)
        /\ heap w' = heap w ++ createLitScene ++ [Reticle_new]
        /\ reticle (this w') = Some (length (heap w) + length createLitScene)%nat
        /\ scene (this w')
           = Some (seq (length (heap w)) (length createLitScene)
                   ++ [(length (heap w) + length createLitScene)%nat]))
  /\ (forall s, requestSession_result env = Resolved s ->
        xrSession (this w') = Some s
        /\ (selectListener w' = true <-> session_granted env s)).
Proof.
  intros r w' evs. subst r w' evs.
  unfold session_granted, activateXR, createXRCanvas, onSessionStarted,
    setupThreeJs, requestAnimationFrame, onNoXRDevice.
  destruct (requestSession_result env) as [s0|e0];
    [destruct (webgl_context env);
       [destruct (localReferenceSpace_result env) as [[]|e1];
          [destruct (viewerSpace_result env) as [[]|e2];
             [destruct (hitTestSource_result env) as [[]|e3]|]|]|]|];
    js_run;
    (split; [reflexivity|]);
    (split; [split;
               [ intros H; in_trace H;
                 intros s (H1 & H2 & H3 & H4 & H5); discriminate
               | intros H; try trace_mem;
                 exfalso; apply (H s0); repeat split ]|]);
    (split; [intros s (H1 & H2 & H3 & H4 & H5); try discriminate;
             injection H1 as <-;
             rewrite ?length_app, <- ?app_assoc; repeat split|]);
    intros s H1; try discriminate; injection H1 as <-;
    (split; [reflexivity|]);
    (split; [ intros H; try discriminate H; repeat split
            | intros (H1 & H2 & H3 & H4 & H5); try discriminate; reflexivity ]).
Qed.

(** *** Frames before and after the placement *)

(** X7.  Until the model is placed, a frame of the session moves the
    reticle to the first hit: with a viewer pose and a first hit-test
    result whose pose is at [p], [onXRFrame] makes the reticle visible
    and puts it at exactly [p], changes no other scene object, marks the
    session as stabilized, renders the scene and reports no error. *)
Theorem onXRFrame_reticle_follows_hit (frame : XRFrame) (w : World)
    (s : XRSession) (view : XRView) (p : Vector3) (rest : list (option Vector3))
    (r : Ref) :
  xrSession (this w) = Some s ->
  viewerPose frame = Some view ->
  hitTestResults frame = Some p :: rest ->
  reticle (this w) = Some r ->
  (r < length (heap w))%nat ->
  modelCloned (this w) = false ->
  let res := run (onXRFrame frame) w in
  let w' := state_of res in
  let evs := added (onXRFrame frame) w in
  threw res = false
  /\ visible (heap w' !!! r) = true
  /\ position (heap w' !!! r) = p
  /\ name (heap w' !!! r) = name (heap w !!! r)
  /\ (forall m, m <> r -> heap w' !!! m = heap w !!! m)
  /\ stabilized (this w') = true
  /\ Call "renderer.render" ∈ evs
  /\ ConsoleError "Reticle is not found." ∉ evs.
Proof.
  intros Hs Hpose Hhits Hr Hlt Hc res w' evs. subst res w' evs.
  unfold onXRFrame, requestAnimationFrame.
  js_run. rewrite Hs. js_run. rewrite Hpose. js_run. rewrite Hhits. js_run.
  destruct (stabilized (this w)) eqn:Hst; js_run; rewrite Hr, Hc; js_run;
    destruct (mixer (this w) && animation (this w)); js_run;
    rewrite !list_lookup_total_alter_eq by (rewrite ?length_alter; lia);
    repeat split;
    first [ exact Hst
          | intros m Hm; rewrite !list_lookup_total_alter_ne by congruence;
            reflexivity
          | solve [trace_mem]
          | intros H; in_trace H ].
Qed.

(** X8.  A hit-test result without a pose aborts the frame half way:
    when [getPose] returns [null] for the first result while the reticle
    is still tracking, [onXRFrame] has already made the reticle visible
    when it throws; the reticle keeps its old position, the scene is not
    rendered in this frame, and the next frame was requested before.  The
    event loop reports the exception as uncaught. *)
Theorem onXRFrame_null_hit_pose (frame : XRFrame) (w : World)
    (s : XRSession) (view : XRView) (rest : list (option Vector3)) (r : Ref) :
  xrSession (this w) = Some s ->
  viewerPose frame = Some view ->
  hitTestResults frame = None :: rest ->
  reticle (this w) = Some r ->
  (r < length (heap w))%nat ->
  modelCloned (this w) = false ->
  let res := run (onXRFrame frame) w in
  let w' := state_of res in
  let evs := added (onXRFrame frame) w in
  (exists w1, res = Throw (TypeError "hitPose is null") w1)
  /\ visible (heap w' !!! r) = true
  /\ position (heap w' !!! r) = position (heap w !!! r)
  /\ (Call "renderer.render" ∉ evs)
  /\ rafQueue w' = rafQueue w ++ [CbOnXRFrame]
  /\ (Uncaught (TypeError "hitPose is null")
        ∈ added (task (onXRFrame frame)) w).
Proof.
  intros Hs Hpose Hhits Hr Hlt Hc res w' evs. subst res w' evs.
  unfold task, onXRFrame, requestAnimationFrame.
  js_run. rewrite Hs. js_run. rewrite Hpose. js_run. rewrite Hhits. js_run.
  destruct (stabilized (this w)); js_run; rewrite Hr, Hc; js_run;
    rewrite !list_lookup_total_alter_eq by (rewrite ?length_alter; lia);
    repeat split;
    first [ eexists; reflexivity
          | solve [trace_mem]
          | intros H; in_trace H ].
Qed.

(** X9.  On a session with a viewer pose, [onXRFrame] logs the error
    'Reticle is not found.' exactly when the frame has a hit-test result
    and either there is no reticle or the model is already placed.  So,
    once the model is placed, every frame with a hit logs this error,
    although the reticle exists. *)
Theorem onXRFrame_reticle_error (frame : XRFrame) (w : World)
    (s : XRSession) (view : XRView) :
  xrSession (this w) = Some s ->
  viewerPose frame = Some view ->
  let evs := added (onXRFrame frame) w in
  (ConsoleError "Reticle is not found." ∈ evs
     <-> hitTestResults frame <> []
         /\ (reticle (this w) = None \/ modelCloned (this w) = true))
  /\ (modelCloned (this w) = true -> hitTestResults frame <> [] ->
        threw (run (onXRFrame frame) w) = false
        /\ ConsoleError "Reticle is not found." ∈ evs
        /\ heap (state_of (run (onXRFrame frame) w)) = heap w).
Proof.
  intros Hs Hpose evs. subst evs.
  unfold onXRFrame, requestAnimationFrame.
  js_run. rewrite Hs. js_run. rewrite Hpose. js_exec;
    destruct (modelCloned (this w)); cbn [negb] in *; try discriminate;
    (split;
       [ split;
           [ intros H; in_trace H;
             (split; [discriminate | first [left; reflexivity | right; reflexivity]])
           | intros [Hne [H|H]]; try congruence; try discriminate;
             solve [trace_mem] ]
       | intros Hc Hne; try congruence; try discriminate;
         repeat split; solve [trace_mem] ]).
Qed.

(** *** The placement and the shadow *)

(** Moving or showing an object does not rename it, so a search by name
    finds the same child before and after. *)
Lemma find_by_name_alter (f : Object3D -> Object3D) (i : Ref)
    (h : list Object3D) (n : string) (children : list Ref) :
  (forall o, name (f o) = name o) ->
  find (fun c => String.eqb (name (alter f i h !!! c)) n) children
  = find (fun c => String.eqb (name (h !!! c)) n) children.
Proof.
  intros Hf. induction children as [|c children IH]; [reflexivity|].
  cbn [find]. rewrite IH, list_lookup_total_alter.
  case_decide as Hi; [destruct Hi as [-> _]; rewrite Hf|]; reflexivity.
Qed.

(** Look up an object in a store that was updated in places. *)
Ltac heap_lookup :=
  repeat (rewrite list_lookup_total_alter; rewrite ?length_alter;
          let Hd := fresh "Hd" in
          case_decide as Hd;
          [ apply proj1 in Hd; try congruence
          | try (exfalso; apply Hd; split; [reflexivity | lia]) ]).

(** X10.  The placement puts the shadow at the height of the model.  When
    the first child of the scene named 'shadowMesh' is the object [sh],
    the select that places the model gives [sh] the [y] of the reticle's
    position, which is where the model now is, keeps its [x] and [z] and
    its visibility, and warns about nothing.  When the scene has no such
    child, the select warns 'Shadow mesh not found.' and still places the
    model. *)
Theorem onSelect_aligns_shadow (w : World) (m r : Ref) (children : list Ref) :
  modelCloned (this w) = false ->
  sunflower (this w) = Some m ->
  reticle (this w) = Some r ->
  scene (this w) = Some children ->
  (m < length (heap w))%nat ->
  r <> m ->
  let found :=
    find (fun c => String.eqb (name (heap w !!! c)) "shadowMesh") children in
  let w1 := state_of (run onSelect w) in
  let evs := added onSelect w in
  (forall sh, found = Some sh ->
      (sh < length (heap w))%nat -> sh <> r -> sh <> m ->
      position (heap w1 !!! sh)
        = mkVector3 (vx (position (heap w !!! sh)))
                    (vy (position (heap w !!! r)))
                    (vz (position (heap w !!! sh)))
      /\ vy (position (heap w1 !!! sh)) = vy (position (heap w1 !!! m))
      /\ visible (heap w1 !!! sh) = visible (heap w !!! sh)
      /\ evs = [])
  /\ (found = None ->
      evs = [ConsoleWarn "Shadow mesh not found."]
      /\ modelCloned (this w1) = true
      /\ position (heap w1 !!! m) = position (heap w !!! r)).
Proof.
  intros Hc Hm Hr Hs Hlt Hne found w1 evs. subst found w1 evs.
  unfold onSelect, find_by_name. js_run. rewrite Hc, Hm. js_run.
  rewrite Hr. js_run. rewrite Hs. js_run.
  rewrite !find_by_name_alter by reflexivity.
  split.
  - intros sh Hfound Hshlt Hshr Hshm. rewrite Hfound. js_run.
    heap_lookup. repeat split.
  - intros Hfound. rewrite Hfound. js_run.
    heap_lookup. repeat split.
Qed.

(** *** The capture *)

(** X11.  [captureImage] needs a session.  It always shows the prompt and
    logs that the capture starts; it throws exactly when [this.xrSession]
    is unset, and then no frame callback is requested, so that nothing
    will hide the prompt again.  A click on the capture button outside a
    session therefore leaves the prompt displayed and is reported as an
    uncaught [TypeError]. *)
Theorem captureImage_needs_session (w : World) :
  let r := run captureImage w in
  let w' := state_of r in
  prompt_display w' = "flex"
  /\ ConsoleLog "Starting capture process" ∈ added captureImage w
  /\ (threw r = true <-> xrSession (this w) = None)
  /\ (xrSession (this w) = None ->
        rafQueue w' = rafQueue w
        /\ filter is_RequestAnimationFrame (added captureImage w) = []
        /\ (location (page w) = None ->
            let w1 := step w ClickCapture in
            prompt_display w1 = "flex"
            /\ rafQueue w1 = rafQueue w
            /\ Uncaught (TypeError "this.xrSession is undefined")
                 ∈ trace (page w1))).
Proof.
  intros r w'. subst r w'.
  unfold step, handle, task, captureImage, requestAnimationFrame.
  js_run.
  destruct (xrSession (this w)) as [s|] eqn:Hs; js_run;
    (split; [reflexivity|]); (split; [trace_mem|]);
    (split; [split; intros H; congruence|]);
    intros H; try discriminate H.
  split; [reflexivity|]. split; [reflexivity|].
  intros Hloc. rewrite Hloc. js_run.
  repeat split. rewrite !elem_of_app. right. trace_mem.
Qed.

(** The floor in [getCamerafeed], as an integer division. *)
Lemma requiredWidth_div (h : Z) : requiredWidth h = 9 * h / 20.
Proof.
  unfold requiredWidth, Qfloor. simpl. rewrite Z.mul_comm. reflexivity.
Qed.

(** X12.  The camera canvas has the height of the AR canvas and the
    width of a 9:20 portrait, rounded down: for every height [h >= 0],
    [requiredWidth h] is [floor(9*h/20)], lies between [0] and [h], and
    is [0] exactly for heights below [3].  Where the media-devices API is
    available, [getCamerafeed] gives the camera canvas this height and
    this width before it asks for the camera. *)
Theorem getCamerafeed_camera_canvas_size (h : Z) :
  0 <= h ->
  requiredWidth h = 9 * h / 20
  /\ 0 <= requiredWidth h <= h
  /\ 20 * requiredWidth h <= 9 * h < 20 * (requiredWidth h + 1)
  /\ (requiredWidth h = 0 <-> h < 3)
  /\ forall env arCanvas w,
       height arCanvas = h ->
       mediaDevices env = true ->
       getUserMedia_defined env = true ->
       exists pre post,
         added (getCamerafeed env arCanvas) w
           = pre ++ [SetHeight "cameraCanvas" h;
                     SetWidth "cameraCanvas" (requiredWidth h);
                     GetUserMedia] ++ post
         /\ filter is_GetUserMedia pre = [].
Proof.
  intros Hh. pose proof (requiredWidth_div h) as Hw.
  assert (20 * (9 * h / 20) <= 9 * h < 20 * (9 * h / 20 + 1)) as Hdiv.
  { pose proof (Z.mul_div_le (9 * h) 20 ltac:(lia)).
    pose proof (Z.mul_succ_div_gt (9 * h) 20 ltac:(lia)). lia. }
  split; [exact Hw|]. rewrite Hw.
  split; [lia|]. split; [exact Hdiv|]. split; [lia|].
  intros env arCanvas w Hheight Hmd Hgum.
  unfold getCamerafeed, video_onloadeddata, combineCanvases,
    bannerImage_onload, bannerImage_onerror, drawImage_canvas, setItem.
  rewrite Hmd, Hgum, Hheight, Hw.
  js_exec;
    (eexists [_; _; _], _; split; [reflexivity | reflexivity]).
Qed.

#[global] Instance captured_preorder env frame : PreOrder (captured env frame).
Proof.
  split.
  - intros w. left. reflexivity.
  - intros w1 w2 w3 [H12|(u1 & Hok1 & H12)] [H23|(u2 & Hok2 & H23)].
    + left. congruence.
    + right. exists u2. split; [exact Hok2|].
      rewrite H23. unfold handoff in H12. injection H12 as -> _ _.
      reflexivity.
    + right. exists u1. split; [exact Hok1|]. congruence.
    + right. exists u2. split; [exact Hok2|].
      rewrite H23. unfold handoff in H12. injection H12 as -> _ _.
      rewrite insert_insert_eq. reflexivity.
Qed.

(** Symbolic execution for a goal that does not speak about the trace. *)
Ltac js_exec_state := cbn; repeat (js_case; cbn).







(** *** Invariants of the event loop *)

(** What [activateXR] does to the frame callbacks and to the scene
    objects: the callbacks are kept, dropped, or replaced by one
    [onXRFrame]; objects are only added. *)
Lemma activateXR_effects env w :
  let w' := state_of (run (activateXR env) w) in
  (rafQueue w' = rafQueue w \/ rafQueue w' = [] \/ rafQueue w' = [CbOnXRFrame])
  /\ exists ext, heap w' = heap w ++ ext.
Proof.
  unfold activateXR, createXRCanvas, onSessionStarted, setupThreeJs,
    requestAnimationFrame, onNoXRDevice.
  js_exec_state;
    (split; [auto|]);
    first [ exists []; rewrite app_nil_r; reflexivity
          | eexists; rewrite <- ?app_assoc; reflexivity ].
Qed.

Lemma activateXR_started env s w :
  session_granted env s ->
  rafQueue (state_of (run (activateXR env) w)) = [CbOnXRFrame].
Proof.
  intros (H1 & H2 & H3 & H4 & H5).
  unfold activateXR, createXRCanvas, onSessionStarted, setupThreeJs,
    requestAnimationFrame, onNoXRDevice.
  rewrite H1, H2, H3, H4, H5. reflexivity.
Qed.

Lemma filter_filter_length {A} (P : A -> Prop) `{!forall x, Decision (P x)}
    (l : list A) :
  length (filter P (filter P l)) = length (filter P l).
Proof.
  induction l as [|x l IH]; [reflexivity|].
  rewrite filter_cons. destruct (decide (P x)) as [Hx|Hx]; [|exact IH].
  rewrite filter_cons, decide_True by exact Hx. simpl. rewrite IH. reflexivity.
Qed.

(** Only a click on the button to enter AR changes how many [onXRFrame]
    callbacks wait. *)
Lemma step_pending w i :
  session_ok w -> is_ClickEnterAR i = false ->
  pending_onXRFrame (step w i) = pending_onXRFrame w.
Proof.
  intros Hok Hi. unfold step. destruct (location (page w)); [reflexivity|].
  unfold pending_onXRFrame.
  destruct i as [env|gltf| |frame env|]; try discriminate; unfold handle.
  - rewrite run_bind. cbn [gets run].
    destruct (pendingLoads w) as [|n]; [reflexivity|].
    rewrite run_bind. cbn [modify run].
    rewrite (task_state rafQueue) by reflexivity.
    pose proof (onGltfLoaded_keeps_session gltf (set_pendingLoads n w)) as Hk.
    unfold keeps in Hk. set (w' := state_of _) in *. clearbody w'.
    injection Hk as _ Hq _. rewrite Hq. reflexivity.
  - rewrite run_bind. cbn [gets run].
    destruct (selectListener w); [|reflexivity].
    rewrite (task_state rafQueue) by reflexivity.
    pose proof (onSelect_keeps_session w) as Hk.
    unfold keeps in Hk. set (w' := state_of _) in *. clearbody w'.
    injection Hk as _ Hq _. rewrite Hq. reflexivity.
  - rewrite animationFrame_queue by exact Hok. apply filter_filter_length.
  - rewrite (task_state rafQueue) by reflexivity.
    unfold captureImage, requestAnimationFrame.
    js_exec_state; [rewrite filter_app, length_app; simpl; lia | reflexivity].
Qed.

(** X14.  The frame loop neither stops nor doubles.  In every reachable
    world at most one [onXRFrame] callback waits for the next frame.  No
    input other than a click on the button to enter AR changes that
    number: a frame re-arms each [onXRFrame] it runs exactly once, and
    captures, selects and model loads leave it alone.  So, from a
    successful session start on, exactly one [onXRFrame] waits after any
    sequence of such inputs. *)
Theorem frame_loop_single :
  (forall w, reachable w -> (pending_onXRFrame w <= 1)%nat)
  /\ (forall w i,
      reachable w -> is_ClickEnterAR i = false ->
      pending_onXRFrame (step w i) = pending_onXRFrame w)
  /\ (forall w env s inputs,
      reachable w ->
      location (page w) = None ->
      enterArListener w = true ->
      session_granted env s ->
      clicks inputs = 0%nat ->
      pending_onXRFrame (steps (step w (ClickEnterAR env)) inputs) = 1%nat).
Proof.
  assert (forall w i, reachable w -> is_ClickEnterAR i = false ->
            pending_onXRFrame (step w i) = pending_onXRFrame w) as Hstep
    by (intros w i Hr Hi; apply step_pending;
        [apply reachable_session_ok, Hr | exact Hi]).
  split; [|split; [exact Hstep|]].
  - intros w Hreach.
    induction Hreach as [nav storage container prompt|w i Hreach IH].
    + unfold pending_onXRFrame, script, xrSupportCheck, App_constructor,
        onNoXRDevice.
      js_exec_state; simpl; lia.
    + destruct (is_ClickEnterAR i) eqn:Hi;
        [|rewrite (Hstep w i Hreach Hi); exact IH].
      destruct i as [env| | | |]; try discriminate.
      unfold step. destruct (location (page w)); [exact IH|].
      unfold handle. rewrite run_bind. cbn [gets run].
      destruct (enterArListener w); [|exact IH].
      unfold pending_onXRFrame in *.
      rewrite (task_state rafQueue) by reflexivity.
      destruct (activateXR_effects env w) as [[Hq|[Hq|Hq]] _];
        rewrite Hq; [exact IH | simpl; lia | simpl; lia].
  - intros w env s inputs Hreach Hloc Hbutton Hgranted Hclicks.
    assert (reachable (step w (ClickEnterAR env))) as Hreach1
      by (apply reachable_step, Hreach).
    assert (pending_onXRFrame (step w (ClickEnterAR env)) = 1%nat) as Hone.
    { unfold step. rewrite Hloc. unfold handle.
      rewrite run_bind. cbn [gets run]. rewrite Hbutton.
      unfold pending_onXRFrame.
      rewrite (task_state rafQueue) by reflexivity.
      rewrite (activateXR_started env s w Hgranted). reflexivity. }
    revert Hreach1 Hone Hclicks.
    generalize (step w (ClickEnterAR env)) as w1.
    induction inputs as [|i inputs IH]; intros w1 Hreach1 Hone Hclicks;
      [exact Hone|].
    cbn [steps fold_left]. fold (steps (step w1 i) inputs).
    assert (is_ClickEnterAR i = false /\ clicks inputs = 0%nat) as [Hi Hrest].
    { unfold clicks in *. rewrite filter_cons in Hclicks.
      destruct (is_ClickEnterAR i); [discriminate Hclicks|].
      rewrite decide_False in Hclicks by (simpl; intros []). auto. }
    apply IH; [apply reachable_step, Hreach1| |exact Hrest].
    rewrite (Hstep w1 i Hreach1 Hi). exact Hone.
Qed.

(** What [onXRFrame] does besides what placement reads: it changes no
    scene object other than the reticle, and it adds the class
    'stabilized' exactly when it sets the flag. *)
Lemma onXRFrame_effects frame w :
  let w' := state_of (run (onXRFrame frame) w) in
  (forall m, reticle (this w) <> Some m -> heap w' !!! m = heap w !!! m)
  /\ stabilizes_once w w'.
Proof.
  unfold stabilizes_once, stabilized_marks, onXRFrame, requestAnimationFrame.
  js_exec;
    destruct (stabilized (this w)); cbn [negb andb] in *; try discriminate;
    (split;
       [ intros m Hm;
         rewrite ?list_lookup_total_alter_ne by congruence; reflexivity
       | split; [auto|];
         rewrite ?filter_app, ?length_app; simpl; lia ]).
Qed.

#[global] Instance stabilizes_once_preorder : PreOrder stabilizes_once.
Proof.
  split.
  - intros w. split; [auto | reflexivity].
  - intros w1 w2 w3 [Hs12 Hm12] [Hs23 Hm23]. split; [auto|].
    destruct (stabilized (this w1)), (stabilized (this w2)),
      (stabilized (this w3));
      try (discriminate (Hs12 eq_refl)); try (discriminate (Hs23 eq_refl));
      lia.
Qed.

(** A call other than the one that adds the class. *)
Lemma stabilized_marks_emit (e : Event) (w w' : World) :
  trace (page w') = trace (page w) ++ [e] ->
  is_stabilized_mark e = false ->
  stabilized_marks w' = stabilized_marks w.
Proof.
  intros Htr He. unfold stabilized_marks.
  rewrite Htr, filter_app, length_app, filter_cons, He.
  rewrite decide_False by (simpl; intros []). simpl. lia.
Qed.

(** A step that does not touch the flag and does not add the class. *)
Ltac sat_stabilized_leaf :=
  intros ?w; split; [intros ?H; exact H|];
  apply (f_equal2 Nat.add); [|reflexivity];
  first [ reflexivity
        | eapply stabilized_marks_emit; reflexivity ].

Lemma handle_stabilizes_once i : sat (handle i) stabilizes_once.
Proof.
  apply handle_sat; try apply _.
  - intros env _.
    unfold activateXR, createXRCanvas, onSessionStarted, setupThreeJs.
    sat_struct sat_stabilized_leaf.
  - intros gltf. unfold onGltfLoaded. sat_struct sat_stabilized_leaf.
  - intros _. unfold onSelect. sat_struct sat_stabilized_leaf.
  - intros f w. apply (onXRFrame_effects f w).
  - intros e f.
    unfold captureImage_frame, getCamerafeed, video_onloadeddata,
      combineCanvases, bannerImage_onload, bannerImage_onerror.
    sat_struct sat_stabilized_leaf.
  - unfold captureImage. sat_struct sat_stabilized_leaf.
  - intros e. sat_stabilized_leaf.
  - intros q. sat_stabilized_leaf.
  - intros n. sat_stabilized_leaf.
Qed.

Lemma steps_stabilizes_once inputs : forall w,
  stabilizes_once w (steps w inputs).
Proof.
  induction inputs as [|i inputs IH]; intros w; [reflexivity|].
  cbn [steps fold_left]. fold (steps (step w i) inputs).
  etransitivity; [|apply IH].
  apply step_sat; [apply _ | apply handle_stabilizes_once].
Qed.

(** X15.  The page is marked as stabilized once.  In every run of the
    page, the class 'stabilized' was added to the body exactly once if
    [this.stabilized] is set and never otherwise; from a world in which
    the flag is set, no input clears the flag or adds the class again,
    not even the start of a new session. *)
Theorem stabilized_once :
  (forall nav storage container prompt inputs,
      let w := steps (state_of (run (script nav)
                                    (blank storage container prompt)))
                     inputs in
      stabilized_marks w = if stabilized (this w) then 1%nat else 0%nat)
  /\ (forall w inputs,
      stabilized (this w) = true ->
      stabilized (this (steps w inputs)) = true
      /\ stabilized_marks (steps w inputs) = stabilized_marks w).
Proof.
  split.
  - intros nav storage container prompt inputs w.
    set (w0 := state_of (run (script nav) (blank storage container prompt)))
      in *.
    assert (stabilized (this w0) = false /\ stabilized_marks w0 = 0%nat)
      as [Hflag Hmarks].
    { subst w0.
      unfold script, xrSupportCheck, App_constructor, onNoXRDevice.
      js_exec_state; split; reflexivity. }
    destruct (steps_stabilizes_once inputs w0) as [_ Hm].
    fold w in Hm. clearbody w w0. rewrite Hflag, Hmarks in Hm.
    destruct (stabilized (this w)); lia.
  - intros w inputs Hflag.
    destruct (steps_stabilizes_once inputs w) as [Hs Hm].
    specialize (Hs Hflag). rewrite Hflag, Hs in Hm. split; [exact Hs | lia].
Qed.

(** Only [onSelect] touches the display of the capture container. *)
Lemma handle_keeps_container i :
  i <> SelectEvent -> sat (handle i) (keeps captureContainer_display).
Proof.
  intros Hi. apply handle_sat; try apply _.
  - intros env _.
    unfold activateXR, createXRCanvas, onSessionStarted, setupThreeJs.
    sat_struct sat_keeps_leaf.
  - intros gltf. unfold onGltfLoaded. sat_struct sat_keeps_leaf.
  - intros Hsel. destruct (Hi Hsel).
  - intros f. unfold onXRFrame. sat_struct sat_keeps_leaf.
  - intros e f w. apply (captureImage_frame_fields e f w).
  - unfold captureImage. sat_struct sat_keeps_leaf.
  - intros e. sat_keeps_leaf.
  - intros q. sat_keeps_leaf.
  - intros n. sat_keeps_leaf.
Qed.

Lemma step_container container w i :
  Inv w ->
  container_follows_placement container w ->
  container_follows_placement container (step w i).
Proof.
  unfold container_follows_placement. intros HI HK.
  assert (i <> SelectEvent ->
          captureContainer_display (step w i)
          = if modelCloned (this (step w i)) then "flex" else container)
    as Hother.
  { intros Hi.
    pose proof (step_sat (keeps captureContainer_display) w i
                  (handle_keeps_container i Hi)) as Hd.
    unfold keeps in Hd. rewrite Hd.
    assert (placed (step w i) = placed w) as Hp.
    { unfold step. destruct (location (page w)); [reflexivity|].
      apply handle_placed_eq. left. exact Hi. }
    unfold placed in Hp. rewrite Hp. exact HK. }
  destruct i; try (apply Hother; discriminate).
  unfold step. destruct (location (page w)); [exact HK|].
  unfold handle. rewrite run_bind. cbn [gets run].
  destruct (selectListener w); [|exact HK].
  rewrite (task_state captureContainer_display) by reflexivity.
  rewrite (task_state (fun w0 => modelCloned (this w0))) by reflexivity.
  destruct (modelCloned (this w)) eqn:Hc;
    [rewrite onSelect_noop by auto; cbn [state_of]; rewrite Hc; exact HK|].
  destruct (sunflower (this w)) as [m|] eqn:Hm;
    [|rewrite onSelect_noop by auto; cbn [state_of]; rewrite Hc; exact HK].
  pose proof HI as (H1 & H2 & _).
  destruct (H2 m Hm) as (Hlt & [r Hr] & Hne).
  destruct (H1 r Hr) as (_ & [children Hs]).
  assert (r <> m) as Hrm by congruence.
  destruct (onSelect_places w m r children Hc Hm Hr Hs Hlt Hrm)
    as (_ & _ & _ & Hc1 & Hdisp & _).
  rewrite Hc1. exact Hdisp.
Qed.

(** X16.  The capture container is on the screen exactly when the model
    is placed.  In every run of the page, the display of the capture
    container is 'flex' if the model is placed, and is still what the
    markup gave it if not: nothing but the select that places the model
    ever shows the container, and nothing hides it again. *)
Theorem container_shown_iff_placed (nav : XRSupport)
    (storage : gmap string string) (container prompt : string)
    (inputs : list Input) :
  let w := steps (state_of (run (script nav) (blank storage container prompt)))
                 inputs in
  captureContainer_display w
  = if modelCloned (this w) then "flex" else container.
Proof.
  intros w. subst w.
  set (w0 := state_of (run (script nav) (blank storage container prompt))).
  assert (reachable w0) as Hreach by apply reachable_start.
  assert (container_follows_placement container w0) as HK.
  { subst w0. unfold container_follows_placement, script, xrSupportCheck,
      App_constructor, onNoXRDevice.
    js_exec_state; reflexivity. }
  clearbody w0. revert w0 Hreach HK.
  induction inputs as [|i inputs IH]; intros w0 Hreach HK; [exact HK|].
  cbn [steps fold_left]. fold (steps (step w0 i) inputs).
  apply IH; [apply reachable_step, Hreach|].
  apply step_container; [apply reachable_Inv, Hreach | exact HK].
Qed.

(** *** The model stays hidden until it is placed *)

#[global] Instance moves_reticle_only_preorder : PreOrder moves_reticle_only.
Proof.
  split.
  - intros w. repeat split.
  - intros w1 w2 w3 (Hs12 & Hc12 & Hr12 & Hh12) (Hs23 & Hc23 & Hr23 & Hh23).
    repeat split; try congruence.
    intros m Hm. rewrite Hh23 by congruence. apply Hh12, Hm.
Qed.

Lemma onXRFrame_moves_reticle_only frame :
  sat (onXRFrame frame) moves_reticle_only.
Proof.
  intros w.
  destruct (onXRFrame_run frame w) as (_ & _ & Hsk & _).
  destruct (onXRFrame_effects frame w) as [Hheap _].
  set (w' := state_of _) in *. clearbody w'.
  unfold skeleton in Hsk. injection Hsk as Hc _ Hr Hm _ _.
  repeat split; assumption.
Qed.

Lemma moves_reticle_only_hidden w w' :
  Inv w -> moves_reticle_only w w' -> model_hidden w -> model_hidden w'.
Proof.
  intros (_ & H2 & _) (Hs & Hc & Hr & Hh) Hhid m Hm Hcl.
  rewrite Hs in Hm. rewrite Hc in Hcl.
  destruct (H2 m Hm) as (_ & _ & Hne).
  rewrite Hh by exact Hne. apply Hhid; assumption.
Qed.

Lemma activateXR_keeps_model env :
  sat (activateXR env)
      (keeps (fun w => (sunflower (this w), modelCloned (this w)))).
Proof.
  unfold activateXR, createXRCanvas, onSessionStarted, setupThreeJs.
  sat_struct sat_keeps_leaf.
Qed.

Lemma captureImage_keeps_scene :
  sat captureImage (keeps (fun w => (this w, heap w))).
Proof. unfold captureImage. sat_struct sat_keeps_leaf. Qed.

(** The load callback registers the model hidden. *)
Lemma onGltfLoaded_hidden gltf w :
  is_Some (scene (this w)) ->
  model_hidden w -> model_hidden (state_of (run (onGltfLoaded gltf) w)).
Proof.
  intros [children Hs] Hhid. unfold onGltfLoaded.
  destruct (has_child "Sketchfab_model" gltf); js_run; [|exact Hhid].
  js_case; js_run; rewrite Hs; js_run;
    intros m [= <-] _; cbn;
    rewrite list_lookup_total_alter_eq by (rewrite length_app; simpl; lia);
    reflexivity.
Qed.

Lemma handle_hidden i w :
  Inv w -> model_hidden w -> model_hidden (state_of (run (handle i) w)).
Proof.
  intros HI Hhid. pose proof HI as (H1 & H2 & H3 & H4).
  assert (forall (m0 : JS World unit),
            model_hidden (state_of (run m0 w)) ->
            model_hidden (state_of (run (task m0) w))) as Htask.
  { intros m0 Hm0 m. unfold model_hidden in Hm0.
    rewrite (task_state (fun w0 => sunflower (this w0))) by reflexivity.
    rewrite (task_state (fun w0 => modelCloned (this w0))) by reflexivity.
    rewrite (task_state heap) by reflexivity. apply Hm0. }
  destruct i as [env|gltf| |frame env|]; unfold handle.
  - rewrite run_bind. cbn [gets run].
    destruct (enterArListener w); [|exact Hhid].
    apply Htask. intros m.
    pose proof (activateXR_keeps_model env w) as Hk.
    destruct (activateXR_effects env w) as [_ [ext Hext]].
    unfold keeps in Hk. set (w' := state_of _) in *. clearbody w'.
    injection Hk as Hs Hc. rewrite Hs, Hc, Hext. intros Hm Hcl.
    destruct (H2 m Hm) as (Hlt & _).
    rewrite lookup_total_app_l by exact Hlt. apply Hhid; assumption.
  - rewrite run_bind. cbn [gets run].
    destruct (pendingLoads w) as [|n] eqn:Hn; [exact Hhid|].
    rewrite run_bind. cbn [modify run].
    assert (is_Some (reticle (this w))) as [r Hr] by (apply H3; lia).
    destruct (H1 r Hr) as (_ & Hscene).
    assert (forall m0 : JS World unit,
              model_hidden (state_of (run m0 (set_pendingLoads n w))) ->
              model_hidden (state_of (run (task m0) (set_pendingLoads n w))))
      as Htask'.
    { intros m0 Hm0 m. unfold model_hidden in Hm0.
      rewrite (task_state (fun w0 => sunflower (this w0))) by reflexivity.
      rewrite (task_state (fun w0 => modelCloned (this w0))) by reflexivity.
      rewrite (task_state heap) by reflexivity. apply Hm0. }
    apply Htask', onGltfLoaded_hidden; [exact Hscene | exact Hhid].
  - rewrite run_bind. cbn [gets run].
    destruct (selectListener w); [|exact Hhid].
    apply Htask.
    destruct (modelCloned (this w)) eqn:Hc;
      [rewrite onSelect_noop by auto; exact Hhid|].
    destruct (sunflower (this w)) as [m|] eqn:Hm;
      [|rewrite onSelect_noop by auto; exact Hhid].
    pose proof HI as (H1' & H2' & _).
    destruct (H2' m Hm) as (Hlt & [r Hr] & Hne).
    destruct (H1' r Hr) as (_ & [children Hs]).
    assert (r <> m) as Hrm by congruence.
    destruct (onSelect_places w m r children Hc Hm Hr Hs Hlt Hrm)
      as (_ & _ & _ & Hc1 & _).
    intros m' _ Hcl. congruence.
  - apply (moves_reticle_only_hidden w); [exact HI| |exact Hhid].
    apply animationFrame_sat; try apply _.
    + apply onXRFrame_moves_reticle_only.
    + intros e f w0.
      destruct (captureImage_frame_fields e f w0) as (Ht & Hh & _).
      unfold moves_reticle_only. rewrite Ht, Hh. repeat split.
    + intros e w0. repeat split.
    + intros q w0. repeat split.
  - apply Htask. intros m.
    pose proof (captureImage_keeps_scene w) as Hk.
    unfold keeps in Hk. set (w' := state_of _) in *. clearbody w'.
    injection Hk as Ht Hh. rewrite Ht, Hh. apply Hhid.
Qed.

(** X17.  The model is never shown before it is placed.  In every
    reachable world in which the model is registered but not placed, the
    model is invisible: the load callback hides it, frames move the
    reticle and nothing else, and a new session only adds objects.  The
    select that places the model is what makes it visible. *)
Theorem model_hidden_until_placed (w : World) :
  reachable w ->
  (forall m, sunflower (this w) = Some m ->
     modelCloned (this w) = false ->
     visible (heap w !!! m) = false
     /\ visible (heap (state_of (run onSelect w)) !!! m) = true).
Proof.
  intros Hreach.
  assert (model_hidden w) as Hhid.
  { induction Hreach as [nav storage container prompt|w i Hreach IH].
    - unfold model_hidden, script, xrSupportCheck, App_constructor,
        onNoXRDevice.
      js_exec_state; intros m Hm; discriminate Hm.
    - unfold step. destruct (location (page w)); [exact IH|].
      apply handle_hidden; [apply reachable_Inv, Hreach | exact IH]. }
  intros m Hm Hc. split; [apply Hhid; assumption|].
  pose proof (reachable_Inv w Hreach) as (H1 & H2 & _).
  destruct (H2 m Hm) as (Hlt & [r Hr] & Hne).
  destruct (H1 r Hr) as (_ & [children Hs]).
  assert (r <> m) as Hrm by congruence.
  apply (onSelect_places w m r children Hc Hm Hr Hs Hlt Hrm).
Qed.

(** *** The load callback *)

(** X18.  What the load callback does with the file.  A glTF whose scene
    has no child named 'Sketchfab_model' makes the callback throw before
    it registers anything: the world is unchanged, and the event loop
    reports the [TypeError] as uncaught, so the model never becomes
    available.  Otherwise the callback registers the root of the file as
    the model, as a new object that is hidden and is the last child of
    the scene, creates the mixer, and turns the animation flag on only if
    the file has an animation; the placed flag and the reticle are left
    alone. *)
Theorem onGltfLoaded_outcomes (gltf : Gltf) (w : World) (children : list Ref) :
  scene (this w) = Some children ->
  let r := run (onGltfLoaded gltf) w in
  let w' := state_of r in
  (has_child "Sketchfab_model" gltf = false ->
     r = Throw (TypeError "model is undefined") w
     /\ Uncaught (TypeError "model is undefined")
          ∈ added (task (onGltfLoaded gltf)) w)
  /\ (has_child "Sketchfab_model" gltf = true ->
     threw r = false
     /\ sunflower (this w') = Some (length (heap w))
     /\ heap w' = heap w ++ [set_visible false (gltf_scene gltf)]
     /\ scene (this w') = Some (children ++ [length (heap w)])
     /\ mixer (this w') = true
     /\ animation (this w')
        = (animation (this w) || (0 <? gltf_animations gltf)%nat)
     /\ modelCloned (this w') = modelCloned (this w)
     /\ reticle (this w') = reticle (this w)
     /\ (Call "action.play" ∈ added (onGltfLoaded gltf) w
           <-> gltf_animations gltf <> 0%nat)).
Proof.
  intros Hs r w'. subst r w'. unfold task, onGltfLoaded.
  assert (forall (h : list Object3D) (o : Object3D),
            alter (set_visible false) (length h) (h ++ [o])
            = h ++ [set_visible false o]) as Halter.
  { intros h o. replace (length h) with (length h + 0)%nat by lia.
    rewrite alter_app_r. reflexivity. }
  destruct (has_child "Sketchfab_model" gltf); js_run;
    (split; intros Hchild; try discriminate Hchild).
  - destruct (gltf_animations gltf) as [|n]; js_run; rewrite Hs; js_run;
      rewrite orb_comm; cbn [orb]; rewrite Halter;
      (repeat split; try reflexivity;
         [ intros H; first [lia | in_trace H]
         | intros H; first [congruence | solve [trace_mem]] ]).
  - split; [reflexivity | trace_mem].
Qed.

(** *** A warning that is never given *)

#[local] Abbreviation no_reticle_warning :=
  (adds (fun e => negb (is_reticle_warning e))).

Lemma onSelect_no_reticle_warning : sat onSelect no_reticle_warning.
Proof.
  intros w. unfold adds, onSelect, find_by_name.
  js_exec;
    first [ exists []; split; [symmetry; apply app_nil_r | reflexivity]
          | eexists; split; reflexivity ].
Qed.

Lemma handle_no_reticle_warning i : sat (handle i) no_reticle_warning.
Proof.
  apply handle_sat; try apply _.
  - intros env _.
    unfold activateXR, createXRCanvas, onSessionStarted, setupThreeJs.
    sat_struct sat_adds_leaf.
  - intros gltf. unfold onGltfLoaded. sat_struct sat_adds_leaf.
  - intros _. apply onSelect_no_reticle_warning.
  - intros f. unfold onXRFrame. sat_struct sat_adds_leaf.
  - intros e f.
    unfold captureImage_frame, getCamerafeed, video_onloadeddata,
      combineCanvases, bannerImage_onload, bannerImage_onerror.
    sat_struct sat_adds_leaf.
  - unfold captureImage. sat_struct sat_adds_leaf.
  - intros e. sat_adds_leaf.
  - intros q. sat_adds_leaf.
  - intros n. sat_adds_leaf.
Qed.

(** X20.  [onSelect] never warns that the reticle is missing.  Its
    branch that logs 'Reticle is not found.' is guarded by a test of
    [this.reticle] that comes too late: without a reticle, a select that
    finds the model loaded has already thrown a [TypeError] when it read
    the reticle's position, before it changed anything.  So no run of
    [onSelect] gives the warning, and the warning is in the trace of no
    reachable world. *)
Theorem onSelect_reticle_warning_unreachable :
  (forall w, ~ ConsoleWarn "Reticle is not found." ∈ added onSelect w)
  /\ (forall w m,
      reticle (this w) = None ->
      modelCloned (this w) = false ->
      sunflower (this w) = Some m ->
      run onSelect w = Throw (TypeError "this.reticle is undefined") w)
  /\ (forall w, reachable w ->
      ~ ConsoleWarn "Reticle is not found." ∈ trace (page w)).
Proof.
  assert (forall evs : list Event,
            forallb (fun e => negb (is_reticle_warning e)) evs = true ->
            ~ ConsoleWarn "Reticle is not found." ∈ evs) as Hnone.
  { intros evs Hall Hin. rewrite forallb_forall in Hall.
    apply list_elem_of_In in Hin. specialize (Hall _ Hin). discriminate Hall. }
  split; [|split].
  - intros w. apply Hnone, adds_added, onSelect_no_reticle_warning.
  - intros w m Hr Hc Hm. unfold onSelect. js_run. rewrite Hc, Hm. js_run.
    rewrite Hr. reflexivity.
  - intros w Hreach. apply Hnone.
    induction Hreach as [nav storage container prompt|w i Hreach IH].
    + unfold script, xrSupportCheck, App_constructor, onNoXRDevice.
      js_exec_state; reflexivity.
    + destruct (step_sat no_reticle_warning w i (handle_no_reticle_warning i))
        as (evs & Htr & Hevs).
      rewrite Htr, forallb_app, IH, Hevs. reflexivity.
Qed.

(** *** The animation flag *)

#[global] Instance keeps_animation_ok_preorder : PreOrder keeps_animation_ok.
Proof.
  split.
  - intros w. split; auto.
  - intros w1 w2 w3 [Ha12 Hk12] [Ha23 Hk23]. split; auto.
Qed.

Lemma sat_keeps_animation_ok {A} (m : JS World A) :
  sat m (keeps (fun w => (animation (this w), mixer (this w),
                          sunflower (this w)))) ->
  sat m keeps_animation_ok.
Proof.
  intros Hm w. specialize (Hm w).
  unfold keeps, keeps_animation_ok, animation_ok in *.
  set (w' := state_of _) in *. clearbody w'.
  injection Hm as -> -> ->. split; auto.
Qed.

Lemma onGltfLoaded_animation_ok gltf :
  sat (onGltfLoaded gltf) keeps_animation_ok.
Proof.
  intros w. unfold keeps_animation_ok, animation_ok, onGltfLoaded.
  js_exec_state; (split; [auto|]); eauto.
Qed.

Lemma handle_animation_ok i : sat (handle i) keeps_animation_ok.
Proof.
  apply handle_sat; try apply _.
  - intros env _. apply sat_keeps_animation_ok.
    unfold activateXR, createXRCanvas, onSessionStarted, setupThreeJs.
    sat_struct sat_keeps_leaf.
  - apply onGltfLoaded_animation_ok.
  - intros _. apply sat_keeps_animation_ok.
    unfold onSelect. sat_struct sat_keeps_leaf.
  - intros f. apply sat_keeps_animation_ok.
    unfold onXRFrame. sat_struct sat_keeps_leaf.
  - intros e f. apply sat_keeps_animation_ok. intros w. unfold keeps.
    destruct (captureImage_frame_fields e f w) as (-> & _). reflexivity.
  - apply sat_keeps_animation_ok.
    unfold captureImage. sat_struct sat_keeps_leaf.
  - intros e. apply sat_keeps_animation_ok. sat_keeps_leaf.
  - intros q. apply sat_keeps_animation_ok. sat_keeps_leaf.
  - intros n. apply sat_keeps_animation_ok. sat_keeps_leaf.
Qed.

(** X21.  The animation is advanced only for a loaded model.  In every
    reachable world in which [this.animation] is set, the mixer exists
    and the model is registered, so the test of [this.mixer] in
    [onXRFrame] never decides anything; no input clears the flag; and a
    frame calls [mixer.update] only if the flag is set and the frame has
    a viewer pose. *)
Theorem animation_needs_loaded_model :
  (forall w, reachable w ->
     animation (this w) = true ->
     mixer (this w) = true /\ is_Some (sunflower (this w)))
  /\ (forall w i, animation (this w) = true -> animation (this (step w i)) = true)
  /\ (forall frame w,
      Call "mixer.update" ∈ added (onXRFrame frame) w ->
      animation (this w) = true /\ is_Some (viewerPose frame)).
Proof.
  split; [|split].
  - intros w Hreach. change (animation_ok w).
    induction Hreach as [nav storage container prompt|w i Hreach IH].
    + unfold animation_ok, script, xrSupportCheck, App_constructor,
        onNoXRDevice.
      js_exec_state; intros Ha; discriminate Ha.
    + exact (proj2 (step_sat keeps_animation_ok w i (handle_animation_ok i))
               IH).
  - intros w i.
    exact (proj1 (step_sat keeps_animation_ok w i (handle_animation_ok i))).
  - intros frame w. unfold onXRFrame, requestAnimationFrame.
    js_exec; intros H; in_trace H;
      repeat match goal with
             | Hb : _ && _ = true |- _ => apply andb_prop in Hb as [? ?]
             end;
      split; eauto.
Qed.

End Capture.

(** ** Properties of the review script *)

(** C1.  When [localStorage] has no entry under the key 'capturedImage',
    a run of the review script makes exactly one call into the platform,
    the alert 'No image data available.': nothing it does sets the
    displayed image, sizes or draws on the canvas, or configures the
    download and share buttons, and the page state is otherwise unchanged. *)
Theorem review_missing_image_alerts_only (env : Review.Env) (p : Page) :
  localStorage p !! "capturedImage" = None ->
  let r := run (Review.script env) p in
  threw r = false
  /\ trace (state_of r) = trace p ++ [Alert "No image data available."]
  /\ Forall (fun e => Review.is_render_event e = false)
            (events_since (trace p) (trace (state_of r)))
  /\ localStorage (state_of r) = localStorage p
  /\ location (state_of r) = location p.
Proof.
  intros Hnone r. subst r.
  unfold Review.script, Review.main, getItem, gets, mbind, JS_bind; simpl.
  rewrite Hnone; simpl.
  repeat split; try reflexivity.
  rewrite events_since_app. repeat constructor.
Qed.

(** ** Concrete runs

    A page whose scene has a light and a shadow mesh, whose reticle starts
    hidden at the origin, and whose [hide()] clears [visible]; a device
    that supports AR, grants the session and the camera, and reports one
    hit in each frame. *)

Definition origin : Vector3 := mkVector3 0 0 0.

Definition sample_scene : list Object3D :=
  [mkObject3D "light" origin true; mkObject3D "shadowMesh" origin true].

Definition sample_reticle : Object3D := mkObject3D "reticle" origin false.

Definition sample_hide : Object3D -> Object3D := set_visible false.

Definition sample_support : XRSupport := mkXRSupport true true (Resolved true).

Definition sample_session : SessionEnv :=
  mkSessionEnv (Resolved (Session 1)) true
               (Resolved tt) (Resolved tt) (Resolved tt).

Definition sample_gltf : Gltf :=
  mkGltf (mkObject3D "Sketchfab_Scene" origin true) ["Sketchfab_model"] 1.

Definition sample_capture : CaptureEnv :=
  mkCaptureEnv true true (Resolved tt) (Some (1080, 1920)) (Loaded 1080 200)
               (Resolved "data:image/png;base64,iVBORw0KGgo=") true.

Definition sample_frame : XRFrame :=
  mkXRFrame (Some (mkXRView 1080 2400)) [Some (mkVector3 1 0 (-2))].

Definition sample_arCanvas : Canvas := mkCanvas "arCanvas" 1080 2400.

Definition sample_cameraCanvas : Canvas :=
  mkCanvas "cameraCanvas" (requiredWidth 2400) 2400.

Definition sample_step : World -> Input -> World :=
  step sample_scene sample_reticle sample_hide.

(** The page after its script, in a session, after a frame, with the
    model loaded, and with the model placed. *)
Definition sample_start : World :=
  state_of (run (script sample_support) (blank ∅ "none" "none")).

Definition sample_in_session : World :=
  sample_step sample_start (ClickEnterAR sample_session).

Definition sample_tracking : World :=
  sample_step sample_in_session (AnimationFrame sample_frame sample_capture).

Definition sample_loaded : World :=
  sample_step sample_tracking (GltfLoad sample_gltf).

Definition sample_placed : World :=
  sample_step sample_loaded SelectEvent.

Example sample_loaded_model :
  sunflower (this sample_loaded) = Some 3%nat
  /\ reticle (this sample_loaded) = Some 2%nat
  /\ position (heap sample_loaded !!! 2%nat) = mkVector3 1 0 (-2)
  /\ visible (heap sample_loaded !!! 2%nat) = true
  /\ modelCloned (this sample_loaded) = false.
Proof. vm_compute. repeat split; reflexivity. Qed.

Example sample_placed_model :
  position (heap sample_placed !!! 3%nat) = mkVector3 1 0 (-2)
  /\ visible (heap sample_placed !!! 3%nat) = true
  /\ visible (heap sample_placed !!! 2%nat) = false
  /\ modelCloned (this sample_placed) = true
  /\ captureContainer_display sample_placed = "flex"
  /\ rafQueue sample_placed = [CbOnXRFrame].
Proof. vm_compute. repeat split; reflexivity. Qed.

Lemma sample_loaded_reachable :
  reachable sample_scene sample_reticle sample_hide sample_loaded.
Proof.
  unfold sample_loaded, sample_tracking, sample_in_session, sample_step.
  repeat apply reachable_step.
  apply (reachable_start _ _ _ sample_support ∅ "none" "none").
Qed.

Lemma sample_placed_reachable :
  reachable sample_scene sample_reticle sample_hide sample_placed.
Proof.
  unfold sample_placed, sample_step.
  apply reachable_step, sample_loaded_reachable.
Qed.

Lemma sample_in_session_reachable :
  reachable sample_scene sample_reticle sample_hide sample_in_session.
Proof.
  unfold sample_in_session, sample_step.
  apply reachable_step.
  apply (reachable_start _ _ _ sample_support ∅ "none" "none").
Qed.

(** *** The properties at these runs *)

Lemma review_missing_image_alerts_only_witness :
  trace (state_of (run (Review.script (Review.mkEnv (Loaded 1080 2000) true "blob:1"))
                       (mkPage ∅ None [])))
    = [Alert "No image data available."].
Proof.
  exact (proj1 (proj2
    (review_missing_image_alerts_only
       (Review.mkEnv (Loaded 1080 2000) true "blob:1") (mkPage ∅ None [])
       eq_refl))).
Defined.

Lemma combineCanvases_stores_then_navigates_witness :
  localStorage (page (state_of
      (run (combineCanvases sample_capture sample_arCanvas sample_cameraCanvas)
           sample_placed))) !! "capturedImage"
    = Some "data:image/png;base64,iVBORw0KGgo="
  /\ location (page (state_of
      (run (combineCanvases sample_capture sample_arCanvas sample_cameraCanvas)
           sample_placed)))
    = Some "review.html".
Proof.
  pose proof (proj1 (combineCanvases_stores_then_navigates
                       sample_capture sample_arCanvas sample_cameraCanvas
                       sample_placed)
                1080 200 "data:image/png;base64,iVBORw0KGgo="
                eq_refl) as H.
  assert (width sample_arCanvas <> 0) as H1 by (simpl; lia).
  assert (height sample_arCanvas <> 0) as H2 by (simpl; lia).
  assert (width sample_cameraCanvas <> 0) as H3 by (vm_compute; discriminate).
  assert (height sample_cameraCanvas <> 0) as H4 by (simpl; lia).
  destruct (H H1 H2 H3 H4 eq_refl eq_refl) as (_ & _ & _ & Hst & Hloc).
  split; [exact Hst | exact Hloc].
Defined.

Lemma model_placed_once_witness :
  modelCloned (this sample_loaded) = false
  /\ sunflower (this sample_loaded) = Some 3%nat
  /\ modelCloned (this (state_of (run (onSelect sample_hide) sample_loaded)))
     = true
  /\ visible (heap (state_of (run (onSelect sample_hide) sample_loaded)) !!! 3%nat)
     = true.
Proof.
  assert (modelCloned (this sample_loaded) = false) as Hc
    by (vm_compute; reflexivity).
  assert (sunflower (this sample_loaded) = Some 3%nat) as Hm
    by (vm_compute; reflexivity).
  destruct (proj2 (proj2
              (model_placed_once sample_scene sample_reticle sample_hide))
              sample_loaded 3%nat sample_loaded_reachable Hc Hm)
    as (_ & Hvis & Hc1 & _).
  exact (conj Hc (conj Hm (conj Hc1 Hvis))).
Defined.

Lemma getCamerafeed_rejection_reported_witness :
  filter is_GetUserMedia
    (added (getCamerafeed
              (mkCaptureEnv true true (Rejected (DOMException "NotAllowedError"))
                            None LoadError (Rejected (DOMException "")) false)
              sample_arCanvas)
           sample_placed)
  = [GetUserMedia].
Proof.
  refine (proj2 (proj2 (proj2 (proj1
    (getCamerafeed_rejection_reported
       (mkCaptureEnv true true (Rejected (DOMException "NotAllowedError"))
                     None LoadError (Rejected (DOMException "")) false)
       sample_arCanvas sample_placed)
    (DOMException "NotAllowedError") eq_refl eq_refl eq_refl)))).
Defined.

(** C4, as stated, fails: when [navigator.mediaDevices] is missing, the
    acquisition fails and [getCamerafeed] returns at once, without a
    console message and without an alert. *)
Lemma getCamerafeed_unavailable_is_silent :
  mediaDevices (mkCaptureEnv false false (Resolved tt) None LoadError
                             (Rejected (DOMException "")) false) = false
  /\ run (getCamerafeed
            (mkCaptureEnv false false (Resolved tt) None LoadError
                          (Rejected (DOMException "")) false)
            sample_arCanvas) sample_placed
     = Ok tt sample_placed
  /\ existsb is_report
       (added (getCamerafeed
                 (mkCaptureEnv false false (Resolved tt) None LoadError
                               (Rejected (DOMException "")) false)
                 sample_arCanvas) sample_placed)
     = false.
Proof.
  split; [reflexivity|]. split; [reflexivity|].
  unfold added. cbn [getCamerafeed mediaDevices getUserMedia_defined andb
                     run mret JS_ret state_of].
  rewrite events_since_same. reflexivity.
Qed.

Lemma combineCanvases_banner_error_witness :
  Alert "Failed to load the banner image."
    ∈ added (combineCanvases
               (mkCaptureEnv true true (Resolved tt) (Some (1080, 1920)) LoadError
                             (Resolved "data:,") true)
               sample_arCanvas sample_cameraCanvas)
            sample_placed.
Proof.
  exact (proj1 (proj2
    (combineCanvases_banner_error
       (mkCaptureEnv true true (Resolved tt) (Some (1080, 1920)) LoadError
                     (Resolved "data:,") true)
       sample_arCanvas sample_cameraCanvas sample_placed eq_refl))).
Defined.

Lemma xr_failure_shows_fallback_witness :
  unsupported (mkXRSupport false false (Resolved false))
  /\ NoXRDevice ∈ added (xrSupportCheck (mkXRSupport false false (Resolved false)))
                        (blank ∅ "none" "none")
  /\ added (activateXR sample_scene sample_reticle
              (mkSessionEnv (Rejected (DOMException "NotSupportedError")) true
                            (Resolved tt) (Resolved tt) (Resolved tt)))
           sample_start
     = [RequestSession "immersive-ar";
        ConsoleLogExn (DOMException "NotSupportedError"); NoXRDevice].
Proof.
  assert (unsupported (mkXRSupport false false (Resolved false))) as Hun
    by (left; reflexivity).
  destruct (xr_failure_shows_fallback sample_scene sample_reticle sample_hide)
    as (Hno & _ & Hrej & _).
  split; [exact Hun|]. split.
  - exact (proj1 (proj2
      (Hno (mkXRSupport false false (Resolved false)) (blank ∅ "none" "none")
           Hun))).
  - exact (proj1 (proj2
      (Hrej (mkSessionEnv (Rejected (DOMException "NotSupportedError")) true
                          (Resolved tt) (Resolved tt) (Resolved tt))
            (DOMException "NotSupportedError") sample_start eq_refl))).
Defined.

Lemma frame_callbacks_rearm_witness :
  xrSession (this sample_placed) = Some (Session 1)
  /\ rafQueue (state_of (run (onXRFrame sample_frame) sample_placed))
     = rafQueue sample_placed ++ [CbOnXRFrame]
  /\ rafQueue (state_of (run (animationFrame sample_capture sample_frame)
                             sample_placed))
     = filter (fun cb => cb = CbOnXRFrame) (rafQueue sample_placed).
Proof.
  assert (xrSession (this sample_placed) = Some (Session 1)) as Hs
    by (vm_compute; reflexivity).
  destruct (frame_callbacks_rearm sample_scene sample_reticle sample_hide)
    as (Hframe & _ & _ & Hloop).
  exact (conj Hs
           (conj (proj2 (Hframe sample_frame sample_placed (Session 1) Hs))
                 (Hloop sample_capture sample_frame sample_placed
                        sample_placed_reachable))).
Defined.

Lemma select_before_load_is_noop_witness :
  sunflower (this sample_in_session) = None
  /\ run (onSelect sample_hide) sample_in_session = Ok tt sample_in_session
  /\ modelCloned
       (this (state_of (run (onSelect sample_hide) sample_in_session)))
     = false.
Proof.
  assert (sunflower (this sample_in_session) = None) as Hnone
    by (vm_compute; reflexivity).
  destruct (select_before_load_is_noop sample_scene sample_reticle sample_hide
              sample_in_session sample_in_session_reachable Hnone)
    as (Hnoop & _ & Hc & _).
  exact (conj Hnone (conj Hnoop Hc)).
Defined.

Lemma combineCanvases_crop_in_bounds_witness :
  targetHeight 2400 = 1800 /\ cropMargin 2400 = 300
  /\ cropMargin 2400 + targetHeight 2400 <= 2400.
Proof.
  assert (0 <= 2400) as H by lia.
  destruct (combineCanvases_crop_in_bounds 2400 H) as (Ht & Hc & _ & _ & Hb & _).
  split; [rewrite Ht; reflexivity|].
  split; [rewrite Hc, Ht; reflexivity | exact Hb].
Defined.

Lemma reticle_frozen_after_placement_witness :
  modelCloned (this sample_placed) = true
  /\ heap (state_of (run (onXRFrame sample_frame) sample_placed))
     = heap sample_placed
  /\ reticle (this (state_of (run (onXRFrame sample_frame) sample_placed)))
     = reticle (this sample_placed).
Proof.
  assert (modelCloned (this sample_placed) = true) as Hc
    by (vm_compute; reflexivity).
  destruct (reticle_frozen_after_placement sample_scene sample_reticle
              sample_hide sample_placed Hc) as [Hframe _].
  destruct (Hframe sample_frame) as (_ & Hr & Hh).
  exact (conj Hc (conj Hh Hr)).
Defined.

(** ** Further properties of the review script *)

(** Run a script of the review page and read off what it added to the
    trace. *)
Ltac page_run :=
  cbn -[events_since]; repeat rewrite <- app_assoc; simpl app;
  rewrite ?events_since_app, ?events_since_same.

Ltac page_in H :=
  apply list_elem_of_In in H; simpl in H;
  repeat (destruct H as [H|H]; [try discriminate H|]); try contradiction.

Ltac page_mem :=
  repeat first [apply list_elem_of_here | apply list_elem_of_further].

(** X1.  The review script treats an empty entry like a missing one: it
    shows the alert 'No image data available.' exactly when
    [localStorage] has no entry under 'capturedImage' or the entry is the
    empty string, and then the alert is all it does.  It sets the source
    of the displayed image to [url] exactly when the entry is the
    non-empty string [url]. *)
Theorem review_alerts_iff_no_image (env : Review.Env) (p : Page) :
  let evs :=
    events_since (trace p) (trace (state_of (run (Review.script env) p))) in
  let stored := localStorage p !! "capturedImage" in
  (Alert "No image data available." ∈ evs
     <-> stored = None \/ stored = Some "")
  /\ (forall url, SetSrc "captured-image" url ∈ evs
        <-> stored = Some url /\ url <> "")
  /\ (stored = None \/ stored = Some ""
        -> evs = [Alert "No image data available."]).
Proof.
  intros evs stored. subst evs stored.
  unfold Review.script, Review.main, Review.image_onload,
    Review.toBlob_callback, getItem.
  page_run.
  destruct (localStorage p !! "capturedImage") as [s|] eqn:Hs; cbn [truthy].
  - destruct (String.eqb_spec s "") as [->|Hne]; cbn [negb].
    + page_run. split; [|split].
      * split; [auto | intros _; page_mem].
      * intros url. split.
        -- intros H. page_in H.
        -- intros [[= <-] Hurl]. congruence.
      * reflexivity.
    + destruct (Review.image_load env) as [iw ih|];
        [destruct (Review.blob_ready env)|]; page_run;
        (split; [|split]);
        try (split; [intros H; page_in H
                    | intros [H|H]; [discriminate | congruence]]);
        try (intros url; split;
             [ intros H; page_in H; injection H as <-; auto
             | intros [[= <-] _]; page_mem ]);
        (intros [H|H]; [discriminate | congruence]).
  - page_run. split; [|split].
    + split; [auto | intros _; page_mem].
    + intros url. split.
      * intros H. page_in H.
      * intros [H _]. discriminate.
    + reflexivity.
Qed.

(** X2.  The review script only reads the hand-off: whatever is stored,
    however the image loads and whether or not the blob arrives, it makes
    no [setItem] call and no navigation, and [localStorage] and the
    location are what they were.  The captured image stays in
    [localStorage] after it was shown. *)
Theorem review_never_writes (env : Review.Env) (p : Page) :
  let p' := state_of (run (Review.script env) p) in
  localStorage p' = localStorage p
  /\ location p' = location p
  /\ filter (fun e => is_SetItem e || is_Navigate e)
            (events_since (trace p) (trace p')) = [].
Proof.
  intros p'. subst p'.
  unfold Review.script, Review.main, Review.image_onload,
    Review.toBlob_callback, getItem.
  page_run.
  destruct (truthy (localStorage p !! "capturedImage"));
    [destruct (Review.image_load env) as [iw ih|];
       [destruct (Review.blob_ready env)|]|];
    page_run; repeat split; reflexivity.
Qed.

(** X3.  The review page configures its buttons only for an image that
    was rendered.  The canvas is sized and drawn on exactly when the
    stored image is non-empty and loads, and then with the size of the
    image; the download link and the share handler are set exactly when,
    in addition, [toBlob] calls back, and the link then points at the
    object URL with the file name 'captured_image.png'.  When the stored
    image does not load, nothing reports it. *)
Theorem review_buttons_need_rendered_image (env : Review.Env) (p : Page) :
  let evs :=
    events_since (trace p) (trace (state_of (run (Review.script env) p))) in
  let stored := localStorage p !! "capturedImage" in
  (forall w h, DrawImageAt "image" 0 0 w h ∈ evs
     <-> truthy stored = true /\ Review.image_load env = Loaded w h)
  /\ (forall w h, Review.image_load env = Loaded w h -> truthy stored = true ->
        SetWidth "final-canvas" w ∈ evs /\ SetHeight "final-canvas" h ∈ evs)
  /\ (forall href file, SetDownloadLink href file ∈ evs
        <-> truthy stored = true
            /\ (exists w h, Review.image_load env = Loaded w h)
            /\ Review.blob_ready env = true
            /\ href = Review.object_url env /\ file = "captured_image.png")
  /\ (SetShareHandler ∈ evs
        <-> truthy stored = true
            /\ (exists w h, Review.image_load env = Loaded w h)
            /\ Review.blob_ready env = true)
  /\ (Review.image_load env = LoadError -> truthy stored = true ->
        existsb is_report evs = false).
Proof.
  intros evs stored. subst evs stored.
  unfold Review.script, Review.main, Review.image_onload,
    Review.toBlob_callback, getItem.
  page_run.
  destruct (truthy (localStorage p !! "capturedImage"));
    [destruct (Review.image_load env) as [iw ih|];
       [destruct (Review.blob_ready env)|]|];
    page_run;
    (split; [intros w h; split;
               [ intros H; page_in H; injection H as <- <-; auto
               | intros [Ht Hl]; try discriminate;
                 injection Hl as <- <-; page_mem ]|]);
    (split; [intros w h Hl Ht; try discriminate;
             injection Hl as <- <-; split; page_mem|]);
    (split; [intros href file; split;
               [ intros H; page_in H; injection H as <- <-; eauto 10
               | intros (Ht & (w & h & Hl) & Hb & -> & ->);
                 try discriminate; page_mem ]|]);
    (split; [split;
               [ intros H; page_in H; eauto 10
               | intros (Ht & (w & h & Hl) & Hb);
                 try discriminate; page_mem ]|]);
    intros Hl Ht; try discriminate; reflexivity.
Qed.


(** ** From the capture to the review *)


(** ** The further properties at concrete runs

    A review page over an empty entry and over a stored image, a frame
    whose hit-test result has no pose, and the runs of the capture screen
    from above. *)

Definition sample_url : string := "data:image/png;base64,iVBORw0KGgo=".

Definition sample_empty_entry : Page :=
  mkPage {["capturedImage" := ""]} None [].

Definition sample_stored : Page :=
  mkPage {["capturedImage" := sample_url]} None [].

Definition sample_review : Review.Env :=
  Review.mkEnv (Loaded 1080 2000) true "blob:1".

Definition sample_poseless_hit : XRFrame :=
  mkXRFrame (Some (mkXRView 1080 2400)) [None].


Lemma review_alerts_iff_no_image_witness :
  events_since (trace sample_empty_entry)
    (trace (state_of (run (Review.script sample_review) sample_empty_entry)))
  = [Alert "No image data available."].
Proof.
  assert (localStorage sample_empty_entry !! "capturedImage" = Some "") as H
    by (vm_compute; reflexivity).
  exact (proj2 (proj2
           (review_alerts_iff_no_image sample_review sample_empty_entry))
           (or_intror H)).
Defined.

Lemma review_buttons_need_rendered_image_witness :
  SetShareHandler
    ∈ events_since (trace sample_stored)
        (trace (state_of (run (Review.script sample_review) sample_stored))).
Proof.
  assert (truthy (localStorage sample_stored !! "capturedImage") = true) as H
    by (vm_compute; reflexivity).
  apply (proj2 (proj1 (proj2 (proj2 (proj2
           (review_buttons_need_rendered_image sample_review sample_stored)))))).
  split; [exact H|]. split; [exists 1080, 2000; reflexivity | reflexivity].
Defined.

Lemma activateXR_outcomes_witness :
  session_granted sample_session (Session 1)
  /\ rafQueue (state_of (run (activateXR sample_scene sample_reticle
                                sample_session) sample_start))
     = [CbOnXRFrame]
  /\ selectListener (state_of (run (activateXR sample_scene sample_reticle
                                      sample_session) sample_start))
     = true.
Proof.
  assert (session_granted sample_session (Session 1)) as Hok
    by (repeat split).
  destruct (proj1 (proj2 (proj2
              (activateXR_outcomes sample_scene sample_reticle
                 sample_session sample_start))) (Session 1) Hok)
    as (_ & Hq & Hsel & _).
  exact (conj Hok (conj Hq Hsel)).
Defined.

Lemma onXRFrame_reticle_follows_hit_witness :
  reticle (this sample_in_session) = Some 2%nat
  /\ visible (heap (state_of (run (onXRFrame sample_frame) sample_in_session))
              !!! 2%nat) = true
  /\ position (heap (state_of (run (onXRFrame sample_frame) sample_in_session))
               !!! 2%nat) = mkVector3 1 0 (-2).
Proof.
  assert (xrSession (this sample_in_session) = Some (Session 1)) as Hs
    by (vm_compute; reflexivity).
  assert (reticle (this sample_in_session) = Some 2%nat) as Hr
    by (vm_compute; reflexivity).
  assert (2 < length (heap sample_in_session))%nat as Hlt
    by (vm_compute; lia).
  assert (modelCloned (this sample_in_session) = false) as Hc
    by (vm_compute; reflexivity).
  destruct (onXRFrame_reticle_follows_hit sample_frame sample_in_session
              (Session 1) (mkXRView 1080 2400) (mkVector3 1 0 (-2)) []
              2%nat Hs eq_refl eq_refl Hr Hlt Hc)
    as (_ & Hvis & Hpos & _).
  exact (conj Hr (conj Hvis Hpos)).
Defined.

Lemma onXRFrame_null_hit_pose_witness :
  reticle (this sample_in_session) = Some 2%nat
  /\ visible (heap (state_of (run (onXRFrame sample_poseless_hit)
                                  sample_in_session)) !!! 2%nat) = true
  /\ position (heap (state_of (run (onXRFrame sample_poseless_hit)
                                   sample_in_session)) !!! 2%nat)
     = position (heap sample_in_session !!! 2%nat).
Proof.
  assert (xrSession (this sample_in_session) = Some (Session 1)) as Hs
    by (vm_compute; reflexivity).
  assert (reticle (this sample_in_session) = Some 2%nat) as Hr
    by (vm_compute; reflexivity).
  assert (2 < length (heap sample_in_session))%nat as Hlt
    by (vm_compute; lia).
  assert (modelCloned (this sample_in_session) = false) as Hc
    by (vm_compute; reflexivity).
  destruct (onXRFrame_null_hit_pose sample_poseless_hit sample_in_session
              (Session 1) (mkXRView 1080 2400) [] 2%nat
              Hs eq_refl eq_refl Hr Hlt Hc)
    as (_ & Hvis & Hpos & _).
  exact (conj Hr (conj Hvis Hpos)).
Defined.

Lemma onXRFrame_reticle_error_witness :
  modelCloned (this sample_placed) = true
  /\ ConsoleError "Reticle is not found."
       ∈ added (onXRFrame sample_frame) sample_placed.
Proof.
  assert (xrSession (this sample_placed) = Some (Session 1)) as Hs
    by (vm_compute; reflexivity).
  assert (modelCloned (this sample_placed) = true) as Hc
    by (vm_compute; reflexivity).
  assert (hitTestResults sample_frame <> []) as Hne by discriminate.
  destruct (proj2 (onXRFrame_reticle_error sample_frame sample_placed
                     (Session 1) (mkXRView 1080 2400) Hs eq_refl) Hc Hne)
    as (_ & Hin & _).
  exact (conj Hc Hin).
Defined.

Lemma onSelect_aligns_shadow_witness :
  name (heap sample_loaded !!! 1%nat) = "shadowMesh"
  /\ vy (position (heap (state_of (run (onSelect sample_hide) sample_loaded))
                   !!! 1%nat))
     = vy (position (heap (state_of (run (onSelect sample_hide) sample_loaded))
                     !!! 3%nat))
  /\ added (onSelect sample_hide) sample_loaded = [].
Proof.
  assert (name (heap sample_loaded !!! 1%nat) = "shadowMesh") as Hname
    by (vm_compute; reflexivity).
  assert (modelCloned (this sample_loaded) = false) as Hc
    by (vm_compute; reflexivity).
  assert (sunflower (this sample_loaded) = Some 3%nat) as Hm
    by (vm_compute; reflexivity).
  assert (reticle (this sample_loaded) = Some 2%nat) as Hr
    by (vm_compute; reflexivity).
  assert (scene (this sample_loaded) = Some [0; 1; 2; 3]%nat) as Hs
    by (vm_compute; reflexivity).
  assert (3 < length (heap sample_loaded))%nat as Hlt by (vm_compute; lia).
  assert (find (fun c => String.eqb (name (heap sample_loaded !!! c))
                                    "shadowMesh") [0; 1; 2; 3]%nat
          = Some 1%nat) as Hfound by (vm_compute; reflexivity).
  assert (1 < length (heap sample_loaded))%nat as Hshlt by (vm_compute; lia).
  destruct (proj1 (onSelect_aligns_shadow sample_hide sample_loaded
                     3%nat 2%nat [0; 1; 2; 3]%nat Hc Hm Hr Hs Hlt
                     ltac:(discriminate))
              1%nat Hfound Hshlt ltac:(discriminate) ltac:(discriminate))
    as (_ & Hy & _ & Hevs).
  exact (conj Hname (conj Hy Hevs)).
Defined.

Lemma captureImage_needs_session_witness :
  xrSession (this sample_start) = None
  /\ rafQueue (state_of (run captureImage sample_start)) = rafQueue sample_start
  /\ filter is_RequestAnimationFrame (added captureImage sample_start) = [].
Proof.
  assert (xrSession (this sample_start) = None) as Hs
    by (vm_compute; reflexivity).
  destruct (proj2 (proj2 (proj2
              (captureImage_needs_session sample_scene sample_reticle
                 sample_hide sample_start))) Hs)
    as (Hq & Hraf & _).
  exact (conj Hs (conj Hq Hraf)).
Defined.

Lemma getCamerafeed_camera_canvas_size_witness :
  requiredWidth 2400 = 9 * 2400 / 20
  /\ 0 <= requiredWidth 2400 <= 2400.
Proof.
  assert (0 <= 2400) as H by lia.
  destruct (getCamerafeed_camera_canvas_size 2400 H) as (Hw & Hb & _).
  exact (conj Hw Hb).
Defined.


Lemma frame_loop_single_witness :
  (pending_onXRFrame sample_placed <= 1)%nat
  /\ pending_onXRFrame
       (step sample_scene sample_reticle sample_hide sample_placed
             (AnimationFrame sample_frame sample_capture))
     = pending_onXRFrame sample_placed.
Proof.
  destruct (frame_loop_single sample_scene sample_reticle sample_hide)
    as (Hle & Hstep & _).
  exact (conj (Hle sample_placed sample_placed_reachable)
              (Hstep sample_placed (AnimationFrame sample_frame sample_capture)
                     sample_placed_reachable eq_refl)).
Defined.

Lemma stabilized_once_witness :
  stabilized (this sample_tracking) = true
  /\ stabilized_marks
       (steps sample_scene sample_reticle sample_hide sample_tracking
              [AnimationFrame sample_frame sample_capture;
               ClickEnterAR sample_session;
               AnimationFrame sample_frame sample_capture])
     = stabilized_marks sample_tracking.
Proof.
  assert (stabilized (this sample_tracking) = true) as Hflag
    by (vm_compute; reflexivity).
  exact (conj Hflag
           (proj2 (proj2 (stabilized_once sample_scene sample_reticle
                            sample_hide)
                     sample_tracking
                     [AnimationFrame sample_frame sample_capture;
                      ClickEnterAR sample_session;
                      AnimationFrame sample_frame sample_capture]
                     Hflag))).
Defined.

Lemma model_hidden_until_placed_witness :
  sunflower (this sample_loaded) = Some 3%nat
  /\ visible (heap sample_loaded !!! 3%nat) = false
  /\ visible (heap (state_of (run (onSelect sample_hide) sample_loaded))
              !!! 3%nat) = true.
Proof.
  assert (sunflower (this sample_loaded) = Some 3%nat) as Hm
    by (vm_compute; reflexivity).
  assert (modelCloned (this sample_loaded) = false) as Hc
    by (vm_compute; reflexivity).
  exact (conj Hm
           (model_hidden_until_placed sample_scene sample_reticle sample_hide
              sample_loaded sample_loaded_reachable 3%nat Hm Hc)).
Defined.

Lemma onGltfLoaded_outcomes_witness :
  scene (this sample_tracking) = Some [0; 1; 2]%nat
  /\ sunflower (this (state_of (run (onGltfLoaded sample_gltf) sample_tracking)))
     = Some (length (heap sample_tracking))
  /\ animation (this (state_of (run (onGltfLoaded sample_gltf) sample_tracking)))
     = (animation (this sample_tracking)
        || (0 <? gltf_animations sample_gltf)%nat).
Proof.
  assert (scene (this sample_tracking) = Some [0; 1; 2]%nat) as Hs
    by (vm_compute; reflexivity).
  assert (has_child "Sketchfab_model" sample_gltf = true) as Hchild
    by (vm_compute; reflexivity).
  destruct (proj2 (onGltfLoaded_outcomes sample_gltf sample_tracking
                     [0; 1; 2]%nat Hs) Hchild)
    as (_ & Hm & _ & _ & _ & Ha & _).
  exact (conj Hs (conj Hm Ha)).
Defined.


Lemma onSelect_reticle_warning_unreachable_witness :
  reachable sample_scene sample_reticle sample_hide sample_placed
  /\ ~ ConsoleWarn "Reticle is not found." ∈ trace (page sample_placed).
Proof.
  exact (conj sample_placed_reachable
           (proj2 (proj2 (onSelect_reticle_warning_unreachable
                            sample_scene sample_reticle sample_hide))
              sample_placed sample_placed_reachable)).
Defined.

Lemma animation_needs_loaded_model_witness :
  animation (this sample_placed) = true
  /\ mixer (this sample_placed) = true
  /\ is_Some (sunflower (this sample_placed)).
Proof.
  assert (animation (this sample_placed) = true) as Ha
    by (vm_compute; reflexivity).
  exact (conj Ha
           (proj1 (animation_needs_loaded_model sample_scene sample_reticle
                     sample_hide)
              sample_placed sample_placed_reachable Ha)).
Defined.
